(** * A shallow embedding of the LLC4320 data service, its Flask API and
      its batch loader (src/server/data_service.py, src/server/app.py,
      src/scripts/loading_data.py). *)

From Stdlib Require Import ZArith List String Ascii Bool Lia.
Import ListNotations.
Open Scope string_scope.
Open Scope list_scope.
Set Warnings "-abstract-large-number".
Set Warnings "-register-all".

(** ** Python exceptions raised along the modelled paths *)

Inductive exn : Type :=
| ValueError (msg : string)
| TypeError (msg : string)
| RuntimeError (msg : string)
| FileNotFoundError (msg : string)
| AttributeError (msg : string)
| IndexError (msg : string).

(** [str(e)] *)
Definition exn_msg (e : exn) : string :=
  match e with
  | ValueError m | TypeError m | RuntimeError m
  | FileNotFoundError m | AttributeError m | IndexError m => m
  end.

(** ** The Region Translator (the mask part of [_extract_data_by_latlon_range]
      and of [extract_data_by_latlon_range]) *)

Section Region.

(** Coordinates are 2D float arrays; the translator only ever compares
    them, so the element type is left abstract together with the float
    comparison [a <= b] ([a >= b] is [b <= a]). *)
Variable R : Type.
Variable Rle : R -> R -> bool.

Definition grid := list (list R).

(** [(lat >= lat_range[0]) & (lat <= lat_range[1])
     & (lon >= lon_range[0]) & (lon <= lon_range[1])] on one cell *)
Definition in_box (lat_range lon_range : R * R) (a b : R) : bool :=
  Rle (fst lat_range) a && Rle a (snd lat_range)
  && Rle (fst lon_range) b && Rle b (snd lon_range).

(** The elementwise mask over the two same-shaped coordinate arrays. *)
Definition mask (lat_center lon_center : grid) (lat_range lon_range : R * R)
  : list (list bool) :=
  map (fun rows =>
         map (fun ab => in_box lat_range lon_range (fst ab) (snd ab))
             (combine (fst rows) (snd rows)))
      (combine lat_center lon_center).

(** [np.where] on a 2D boolean array, in row-major order, as (y, x) pairs. *)
Fixpoint where_row (y x : nat) (row : list bool) : list (nat * nat) :=
  match row with
  | [] => []
  | b :: r => if b then (y, x) :: where_row y (S x) r else where_row y (S x) r
  end.

Fixpoint np_where (y : nat) (m : list (list bool)) : list (nat * nat) :=
  match m with
  | [] => []
  | row :: m' => where_row y 0 row ++ np_where (S y) m'
  end.

(** [.min()] and [.max()] of a non-empty index array *)
Definition arr_min (l : list nat) : nat := fold_left Nat.min (tl l) (hd 0 l).
Definition arr_max (l : list nat) : nat := fold_left Nat.max (tl l) (hd 0 l).

Record IndexBox : Type := mkIndexBox {
  x_min : nat; x_max : nat; y_min : nat; y_max : nat
}.

Definition no_data_msg : string := "No data found in the given lat/lon range.".

(** Lines 161-177: from the mask to the half-open index rectangle. *)
Definition region_indices (lat_center lon_center : grid)
  (lat_range lon_range : R * R) : exn + IndexBox :=
  let idx := np_where 0 (mask lat_center lon_center lat_range lon_range) in
  let y_indices := map fst idx in
  let x_indices := map snd idx in
  if (List.length x_indices =? 0)%nat || (List.length y_indices =? 0)%nat
  then inl (ValueError no_data_msg)
  else inr {| x_min := arr_min x_indices;
              x_max := arr_max x_indices + 1;
              y_min := arr_min y_indices;
              y_max := arr_max y_indices + 1 |}.

(** Python slicing [l[a:b]] (clamped at both ends) *)
Definition py_slice {A} (a b : nat) (l : list A) : list A :=
  firstn (b - a) (skipn a l).

(** [g[y_min:y_max, x_min:x_max]] *)
Definition subgrid (g : grid) (bx : IndexBox) : grid :=
  map (py_slice (x_min bx) (x_max bx)) (py_slice (y_min bx) (y_max bx) g).

(** [g[y, x]], when in range *)
Definition at2 (g : grid) (y x : nat) : option R :=
  match nth_error g y with
  | Some row => nth_error row x
  | None => None
  end.

(** A grid cell whose lat and lon both fall inside the box. *)
Definition matching (lat_center lon_center : grid) (lat_range lon_range : R * R)
  (y x : nat) : Prop :=
  exists a b, at2 lat_center y x = Some a /\ at2 lon_center y x = Some b
              /\ in_box lat_range lon_range a b = true.

End Region.

Arguments in_box {R} Rle.
Arguments mask {R} Rle.
Arguments region_indices {R} Rle.
Arguments subgrid {R}.
Arguments at2 {R}.
Arguments matching {R} Rle.

(** ** Python dictionaries with string keys, as insertion-ordered
      association lists *)

Fixpoint dict_get {V} (k : string) (d : list (string * V)) : option V :=
  match d with
  | [] => None
  | (k', v) :: d' => if String.eqb k k' then Some v else dict_get k d'
  end.

(** [d[k] = v]: replaces in place, or appends a new key at the end. *)
Definition dict_set {V} (k : string) (v : V) (d : list (string * V))
  : list (string * V) :=
  match dict_get k d with
  | Some _ => map (fun p => if String.eqb (fst p) k then (k, v) else p) d
  | None => d ++ [(k, v)]
  end.

(** ** Decimal rendering of Python ints in f-strings *)

Fixpoint digits_aux (fuel : nat) (n : Z) (acc : string) : string :=
  match fuel with
  | O => acc
  | S f =>
      let acc' := String (ascii_of_nat (48 + Z.to_nat (n mod 10))) acc in
      if n <? 10 then acc' else digits_aux f (n / 10) acc'
  end%Z.

Definition Z_to_string (z : Z) : string :=
  if (z <? 0)%Z
  then "-" ++ digits_aux (S (Z.to_nat (Z.log2 (- z)))) (- z) ""
  else digits_aux (S (Z.to_nat (Z.log2 z))) z "".

(** ** [str.lower()] on the ASCII letters of a field name *)

Definition lower_ascii (c : ascii) : ascii :=
  let n := nat_of_ascii c in
  if (65 <=? n)%nat && (n <=? 90)%nat then ascii_of_nat (n + 32) else c.

Fixpoint py_lower (s : string) : string :=
  match s with
  | EmptyString => EmptyString
  | String c s' => String (lower_ascii c) (py_lower s')
  end.

(** ** float32 numpy arrays and their serialisations *)

(** A float32 element is kept as its IEEE-754 bit pattern, an integer in
    [0, 2^32): the serialisation code only moves these bits around. *)
Definition f32 := Z.

(** A C-contiguous numpy array: its shape and its row-major elements. *)
Record ndarray : Type := mkArr { shape : list nat; vals : list f32 }.

Definition prod_dims (s : list nat) : nat := fold_right Nat.mul 1%nat s.

(** [a[0]] on the leading axis ([axis] names the axis in numpy's message) *)
Definition take0 (axis : nat) (a : ndarray) : exn + ndarray :=
  match shape a with
  | [] => inl (IndexError "invalid index to scalar variable.")
  | O :: _ => inl (IndexError ("index 0 is out of bounds for axis "
                    ++ Z_to_string (Z.of_nat axis) ++ " with size 0"))
  | S _ :: s => inr {| shape := s; vals := firstn (prod_dims s) (vals a) |}
  end.

(** JSON values produced by [jsonify]; [JNum] carries a coordinate value,
    [JF32] an element of a float32 array turned into a Python float. *)
Inductive json (R : Type) : Type :=
| JNull
| JInt (z : Z)
| JStr (s : string)
| JNum (r : R)
| JF32 (v : f32)
| JArr (l : list (json R))
| JObj (kv : list (string * json R)).

Arguments JNull {R}.
Arguments JInt {R}.
Arguments JStr {R}.
Arguments JNum {R}.
Arguments JF32 {R}.
Arguments JArr {R}.
Arguments JObj {R}.

Definition jget {R} (k : string) (j : json R) : option (json R) :=
  match j with
  | JObj kv => dict_get k kv
  | _ => None
  end.

(** [ndarray.tolist()] / reshaping a flat buffer by a shape *)
Fixpoint nest {R} (shp : list nat) (vs : list f32) : json R :=
  match shp with
  | [] => JF32 (hd 0%Z vs)
  | n :: s =>
      JArr (map (fun i => nest s (py_slice (i * prod_dims s) (S i * prod_dims s) vs))
                (seq 0 n))
  end.

Definition tolist {R} (a : ndarray) : json R := nest (shape a) (vals a).

Definition shape_json {R} (s : list nat) : json R :=
  JArr (map (fun n => JInt (Z.of_nat n)) s).

(** [a.tobytes()] of a float32 array: four little-endian bytes per element *)
Definition f32_bytes (v : f32) : list Z :=
  [v mod 256; (v / 256) mod 256; (v / 65536) mod 256; v / 16777216]%Z.

Definition tobytes (a : ndarray) : list Z := flat_map f32_bytes (vals a).

(** [np.frombuffer(b, dtype=np.float32)] *)
Fixpoint f32_frombuffer (bs : list Z) : option (list f32) :=
  match bs with
  | [] => Some []
  | b0 :: b1 :: b2 :: b3 :: rest =>
      option_map (cons (b0 + 256 * b1 + 65536 * b2 + 16777216 * b3)%Z)
                 (f32_frombuffer rest)
  | _ => None
  end.

Definition b64_alphabet : string :=
  "ABCDEFGHIJKLMNOPQRSTUVWXYZabcdefghijklmnopqrstuvwxyz0123456789+/".

Definition b64char (i : Z) : ascii :=
  match String.get (Z.to_nat i) b64_alphabet with
  | Some c => c
  | None => "="%char
  end.

(** [base64.b64encode(b).decode('utf-8')] *)
Fixpoint b64encode (bs : list Z) : string :=
  match bs with
  | b0 :: b1 :: b2 :: rest =>
      let n := (b0 * 65536 + b1 * 256 + b2)%Z in
      String (b64char (n / 262144)) (String (b64char ((n / 4096) mod 64))
        (String (b64char ((n / 64) mod 64)) (String (b64char (n mod 64))
          (b64encode rest))))
  | [b0; b1] =>
      let n := (b0 * 65536 + b1 * 256)%Z in
      String (b64char (n / 262144)) (String (b64char ((n / 4096) mod 64))
        (String (b64char ((n / 64) mod 64)) (String "="%char EmptyString)))
  | [b0] =>
      let n := (b0 * 65536)%Z in
      String (b64char (n / 262144)) (String (b64char ((n / 4096) mod 64))
        (String "="%char (String "="%char EmptyString)))
  | [] => EmptyString
  end.

Fixpoint index_of (c : ascii) (s : string) (i : Z) : option Z :=
  match s with
  | EmptyString => None
  | String c' s' => if Ascii.eqb c c' then Some i else index_of c s' (i + 1)%Z
  end.

Definition b64index (c : ascii) : option Z := index_of c b64_alphabet 0.

(** The standard (RFC 4648) base64 decoding a client applies to the
    payload, [base64.b64decode]. *)
Fixpoint b64decode (s : string) : option (list Z) :=
  match s with
  | EmptyString => Some []
  | String c0 (String c1 (String c2 (String c3 rest))) =>
      match b64index c0, b64index c1 with
      | Some i0, Some i1 =>
          if Ascii.eqb c2 "="%char then
            if Ascii.eqb c3 "="%char && String.eqb rest ""
            then Some [((i0 * 262144 + i1 * 4096) / 65536)%Z]
            else None
          else
            match b64index c2 with
            | None => None
            | Some i2 =>
                let n := (i0 * 262144 + i1 * 4096 + i2 * 64)%Z in
                if Ascii.eqb c3 "="%char then
                  if String.eqb rest ""
                  then Some [(n / 65536)%Z; ((n / 256) mod 256)%Z]
                  else None
                else
                  match b64index c3 with
                  | None => None
                  | Some i3 =>
                      let m := (n + i3)%Z in
                      option_map (app [(m / 65536)%Z; ((m / 256) mod 256)%Z; (m mod 256)%Z])
                                 (b64decode rest)
                  end
            end
      | _, _ => None
      end
  | _ => None
  end.

(** The serialisation step shared, line for line, by [get_data_slice]
    (lines 288-304) and [get_timestep_data] (lines 370-384); the array is
    float32 already, so [astype(np.float32)] leaves it as it is. *)
Definition serialize {R} (format_type : string) (a : ndarray) : json R :=
  if String.eqb format_type "base64" then
    JObj [("format", JStr "base64");
          ("dtype", JStr "float32");
          ("shape", shape_json (shape a));
          ("data", JStr (b64encode (tobytes a)))]
  else
    JObj [("format", JStr "array");
          ("data", tolist a)].

(** ** The Data Access Service ([class DataService]) *)

(** [FIELD_URLS] (lines 17-24) *)
Definition salt_url : string :=
  "https://nsdf-climate1-origin.nationalresearchplatform.org:50098/nasa/nsdf/climate1/llc4320/idx/salt/salt_llc4320_x_y_depth.idx".
Definition theta_url : string :=
  "https://nsdf-climate1-origin.nationalresearchplatform.org:50098/nasa/nsdf/climate1/llc4320/idx/theta/theta_llc4320_x_y_depth.idx".
Definition w_url : string :=
  "https://nsdf-climate1-origin.nationalresearchplatform.org:50098/nasa/nsdf/climate1/llc4320/idx/w/w_llc4320_x_y_depth.idx".

Definition FIELD_URLS : list (string * string) :=
  [("salinity", salt_url); ("temperature", theta_url);
   ("vertical_velocity", w_url); ("salt", salt_url);
   ("theta", theta_url); ("w", w_url)].

Definition unknown_field_msg (field : string) : string :=
  "Unknown field: " ++ field ++ ". Available fields: "
  ++ "['salinity', 'temperature', 'vertical_velocity', 'salt', 'theta', 'w']".

Definition coord_missing_msg : string :=
  "Coordinate file not found: data/llc4320_latlon.nc
Please download llc4320_latlon.nc to the data folder.
See notebooks/LLC4320_metadata.ipynb for download instructions.".

Section Service.

Variable R : Type.
Variable Rle : R -> R -> bool.

(** The opaque OpenVisus dataset handle, [ovp.LoadDataset(url)], and the
    library's read primitive [db.db.read(time=, x=, y=, z=, quality=)]. *)
Variable dataset : Type.
Variable LoadDataset : string -> exn + dataset.
Variable read : dataset -> Z -> list Z -> list Z -> list Z -> Z -> exn + ndarray.

(** The content of [llc4320_latlon.nc]: its [latitude] and [longitude]
    arrays, or [None] when the file does not exist. *)
Variable latlon_file : option (grid R * grid R).

(** The instance attributes [_datasets], [_lat_center], [_lon_center]. *)
Record state : Type := mkState {
  _datasets : list (string * dataset);
  _lat_center : option (grid R);
  _lon_center : option (grid R)
}.

(** [DataService.__init__] *)
Definition init_state : state := mkState [] None None.

(** Methods run in a state and exception monad: an exception keeps the
    state updates made before it was raised. *)
Definition M (A : Type) : Type := state -> (exn + A) * state.

Definition ret {A} (a : A) : M A := fun s => (inr a, s).

Definition bind {A B} (m : M A) (f : A -> M B) : M B :=
  fun s => match m s with
           | (inl e, s') => (inl e, s')
           | (inr a, s') => f a s'
           end.

Definition raise {A} (e : exn) : M A := fun s => (inl e, s).

Definition lift {A} (r : exn + A) : M A := fun s => (r, s).

Local Notation "x <- m ;; k" := (bind m (fun x => k))
  (at level 61, m at next level, right associativity).

(** [_load_coordinates] (lines 70-84) *)
Definition _load_coordinates : M unit :=
  fun s =>
    match _lat_center s, _lon_center s with
    | Some _, Some _ => (inr tt, s)
    | _, _ =>
        match latlon_file with
        | None => (inl (FileNotFoundError coord_missing_msg), s)
        | Some (la, lo) => (inr tt, mkState (_datasets s) (Some la) (Some lo))
        end
    end.

(** [_get_dataset] (lines 86-117) *)
Definition _get_dataset (field : string) : M dataset :=
  fun s =>
    let field_lower := py_lower field in
    match dict_get field_lower FIELD_URLS with
    | None => (inl (ValueError (unknown_field_msg field)), s)
    | Some url =>
        match dict_get field_lower (_datasets s) with
        | Some d => (inr d, s)
        | None =>
            match LoadDataset url with
            | inl e => (inl e, s)
            | inr d =>
                (inr d, mkState (dict_set field_lower d (_datasets s))
                                (_lat_center s) (_lon_center s))
            end
        end
    end.

(** [self._lat_center], [self._lon_center] as arguments: [None] there makes
    the first array operation fail. *)
Definition coords : M (grid R * grid R) :=
  fun s =>
    match _lat_center s, _lon_center s with
    | Some la, Some lo => (inr (la, lo), s)
    | _, _ => (inl (TypeError "'NoneType' object is not subscriptable"), s)
    end.

Definition read_failed_msg (timestep : Z) (e : exn) : string :=
  "Failed to read data at timestep " ++ Z_to_string timestep ++ ": " ++ exn_msg e.

(** [_extract_data_by_latlon_range] (lines 119-194) *)
Definition _extract_data_by_latlon_range (db : dataset)
  (lat_center lon_center : grid R) (lat_range lon_range : R * R)
  (z_range : list Z) (quality timestep : Z)
  : exn + (ndarray * grid R * grid R) :=
  match region_indices Rle lat_center lon_center lat_range lon_range with
  | inl e => inl e
  | inr bx =>
      let lat := subgrid lat_center bx in
      let lon := subgrid lon_center bx in
      match read db timestep
              [Z.of_nat (x_min bx); Z.of_nat (x_max bx)]
              [Z.of_nat (y_min bx); Z.of_nat (y_max bx)]
              z_range quality with
      | inl e => inl (RuntimeError (read_failed_msg timestep e))
      | inr data => inr (data, lat, lon)
      end
  end.

Definition grid_json (g : grid R) : json R :=
  JArr (map (fun row => JArr (map JNum row)) g).

Definition range_json (r : R * R) : json R := JArr [JNum (fst r); JNum (snd r)].

(** Lines 280-286: drop the singleton time/depth axes. *)
Definition slice_2d (data : ndarray) : exn + ndarray :=
  match List.length (shape data) with
  | 4%nat => match take0 0 data with
             | inl e => inl e
             | inr d => take0 1 d
             end
  | 3%nat => take0 0 data
  | _ => inr data
  end.

(** Lines 364-368: drop the singleton time axis. *)
Definition drop_time (data : ndarray) : exn + ndarray :=
  match List.length (shape data) with
  | 4%nat => take0 0 data
  | _ => inr data
  end.

(** [get_data_slice] (lines 236-319) *)
Definition get_data_slice (field : string) (timestep depth_level : Z)
  (lat_range lon_range : R * R) (quality : Z) (format_type : string)
  : M (json R) :=
  _ <- _load_coordinates ;;
  db <- _get_dataset field ;;
  let z_range := [depth_level; (depth_level + 1)%Z] in
  cs <- coords ;;
  r <- lift (_extract_data_by_latlon_range db (fst cs) (snd cs)
               lat_range lon_range z_range quality timestep) ;;
  let '(data, lat, lon) := r in
  data_slice <- lift (slice_2d data) ;;
  ret (JObj [("field", JStr field);
             ("timestep", JInt timestep);
             ("depth_level", JInt depth_level);
             ("data", serialize format_type data_slice);
             ("coordinates", JObj [("latitude", grid_json lat);
                                   ("longitude", grid_json lon)]);
             ("shape", shape_json (shape data_slice));
             ("lat_range", range_json lat_range);
             ("lon_range", range_json lon_range);
             ("quality", JInt quality)]).

(** [get_timestep_data] (lines 321-399) *)
Definition get_timestep_data (field : string) (timestep : Z)
  (lat_range lon_range : R * R) (z_range : list Z) (quality : Z)
  (format_type : string) : M (json R) :=
  _ <- _load_coordinates ;;
  db <- _get_dataset field ;;
  cs <- coords ;;
  r <- lift (_extract_data_by_latlon_range db (fst cs) (snd cs)
               lat_range lon_range z_range quality timestep) ;;
  let '(data, lat, lon) := r in
  timestep_data <- lift (drop_time data) ;;
  ret (JObj [("field", JStr field);
             ("timestep", JInt timestep);
             ("data", serialize format_type timestep_data);
             ("coordinates", JObj [("latitude", grid_json lat);
                                   ("longitude", grid_json lon)]);
             ("shape", shape_json (shape timestep_data));
             ("lat_range", range_json lat_range);
             ("lon_range", range_json lon_range);
             ("z_range", JArr (map JInt z_range));
             ("quality", JInt quality)]).

(** The dataset accessors [db.getLogicBox()], [db.getTimesteps()] and
    [db.getField()] (its [name] attribute, [None] when it has none); each
    may raise. *)
Variable getLogicBox : dataset -> exn + list (list Z).
Variable getTimesteps : dataset -> exn + list Z.
Variable getField : dataset -> exn + option string.

(** [int(logic_box[1][i]) if len(logic_box) > 1 and len(logic_box[1]) > i
     else None] *)
Definition logic_box_dim (logic_box : list (list Z)) (i : nat) : json R :=
  match nth_error logic_box 1 with
  | Some upper =>
      match nth_error upper i with
      | Some v => JInt v
      | None => JNull
      end
  | None => JNull
  end.

(** [get_metadata] (lines 196-234) *)
Definition get_metadata (field : string) : M (json R) :=
  db <- _get_dataset field ;;
  logic_box <- lift (getLogicBox db) ;;
  timesteps <- lift (getTimesteps db) ;;
  field_info <- lift (getField db) ;;
  ret (JObj [("field", JStr (match field_info with
                             | Some name => name
                             | None => field
                             end));
             ("dimensions", JObj [("x", logic_box_dim logic_box 0);
                                  ("y", logic_box_dim logic_box 1);
                                  ("z", logic_box_dim logic_box 2)]);
             ("total_timesteps", JInt (Z.of_nat (List.length timesteps)));
             ("data_type", JStr "float32");
             ("available_fields", JArr (map (fun p => JStr (fst p)) FIELD_URLS));
             ("field_units", JObj [("salinity", JStr "g kg⁻¹");
                                   ("salt", JStr "g kg⁻¹");
                                   ("temperature", JStr "°C");
                                   ("theta", JStr "°C");
                                   ("vertical_velocity", JStr "m s⁻¹");
                                   ("w", JStr "m s⁻¹")])]).

(** ** The Flask handlers of src/server/app.py *)

(** Python's [int(v)] and [float(v)] on a query-string value: [None] when
    they raise [ValueError]. *)
Variable py_int : string -> option Z.
Variable py_float : string -> option R.

(** [request.args] *)
Definition query := list (string * string).

(** [request.args.get(k, default)] for a string default *)
Definition arg_str (args : query) (k default : string) : string :=
  match dict_get k args with
  | Some v => v
  | None => default
  end.

(** [int(v)] on a string *)
Definition to_int (v : string) : M Z :=
  match py_int v with
  | Some z => ret z
  | None => raise (ValueError ("invalid literal for int() with base 10: '" ++ v ++ "'"))
  end.

(** [float(v)] on a string *)
Definition to_float (v : string) : M R :=
  match py_float v with
  | Some r => ret r
  | None => raise (ValueError ("could not convert string to float: '" ++ v ++ "'"))
  end.

(** [int(request.args.get(k, default))] *)
Definition arg_int (args : query) (k : string) (default : Z) : M Z :=
  match dict_get k args with
  | None => ret default
  | Some v => to_int v
  end.

Definition float_none_msg : string :=
  "float() argument must be a string or a real number, not 'NoneType'".

(** [float(request.args.get(k))] *)
Definition arg_float (args : query) (k : string) : M R :=
  match dict_get k args with
  | None => raise (TypeError float_none_msg)
  | Some v => to_float v
  end.

(** An HTTP status and a JSON body *)
Definition response : Type := (Z * json R)%type.

Definition error_body (m : string) : json R := JObj [("error", JStr m)].

(** [try: ... return jsonify(result)
     except (ValueError, TypeError) as e: ... 400
     except Exception as e: ... 500] *)
Definition respond (r : (exn + json R) * state) : response * state :=
  match r with
  | (inr j, s') => ((200%Z, j), s')
  | (inl (ValueError m), s') | (inl (TypeError m), s') =>
      ((400%Z, error_body ("Invalid parameter: " ++ m)), s')
  | (inl e, s') => ((500%Z, error_body (exn_msg e)), s')
  end.

Definition handle (body : M (json R)) : state -> response * state :=
  fun s => respond (body s).

(** [/api/data/slice] (lines 57-108) *)
Definition api_data_slice (args : query) : state -> response * state :=
  handle (
    let field := arg_str args "field" "salinity" in
    timestep <- arg_int args "timestep" 0 ;;
    depth_level <- arg_int args "depth_level" 0 ;;
    quality <- arg_int args "quality" (-12) ;;
    let format_type := arg_str args "format" "array" in
    lat_min <- arg_float args "lat_min" ;;
    lat_max <- arg_float args "lat_max" ;;
    lon_min <- arg_float args "lon_min" ;;
    lon_max <- arg_float args "lon_max" ;;
    get_data_slice field timestep depth_level (lat_min, lat_max)
                   (lon_min, lon_max) quality format_type).

(** [/api/data/timestep] (lines 111-164) *)
Definition api_timestep_data (args : query) : state -> response * state :=
  handle (
    let field := arg_str args "field" "salinity" in
    timestep <- arg_int args "timestep" 0 ;;
    z_min <- arg_int args "z_min" 0 ;;
    z_max <- arg_int args "z_max" 1 ;;
    quality <- arg_int args "quality" (-12) ;;
    let format_type := arg_str args "format" "array" in
    lat_min <- arg_float args "lat_min" ;;
    lat_max <- arg_float args "lat_max" ;;
    lon_min <- arg_float args "lon_min" ;;
    lon_max <- arg_float args "lon_max" ;;
    get_timestep_data field timestep (lat_min, lat_max) (lon_min, lon_max)
                      [z_min; z_max] quality format_type).

(** [/api/metadata] (lines 36-54): only [ValueError] is answered with 400. *)
Definition respond_metadata (r : (exn + json R) * state) : response * state :=
  match r with
  | (inr j, s') => ((200%Z, j), s')
  | (inl (ValueError m), s') =>
      ((400%Z, error_body ("Invalid parameter: " ++ m)), s')
  | (inl e, s') => ((500%Z, error_body (exn_msg e)), s')
  end.

Definition api_metadata (args : query) : state -> response * state :=
  fun s => respond_metadata (get_metadata (arg_str args "field" "salinity") s).

(** The methods [class DataService] defines (lines 27-399): the attributes
    a [DataService] instance resolves beyond its data attributes. *)
Inductive method : Type :=
| M_init | M_load_coordinates | M_get_dataset | M_extract_data_by_latlon_range
| M_get_metadata | M_get_data_slice | M_get_timestep_data.

Definition DataService_methods : list (string * method) :=
  [("__init__", M_init); ("_load_coordinates", M_load_coordinates);
   ("_get_dataset", M_get_dataset);
   ("_extract_data_by_latlon_range", M_extract_data_by_latlon_range);
   ("get_metadata", M_get_metadata); ("get_data_slice", M_get_data_slice);
   ("get_timestep_data", M_get_timestep_data)].

(** [getattr(data_service, name)] for a method name *)
Definition DataService_getattr (name : string) : M method :=
  match dict_get name DataService_methods with
  | Some m => ret m
  | None => raise (AttributeError ("'DataService' object has no attribute '" ++ name ++ "'"))
  end.

(** Calling a bound method with only the keyword arguments [lat_range] and
    [lon_range]: every method of the class rejects that call. *)
Definition call_lat_lon_kwargs (m : method) : M (json R) :=
  match m with
  | M_init => raise (TypeError "DataService.__init__() got an unexpected keyword argument 'lat_range'")
  | M_load_coordinates => raise (TypeError "DataService._load_coordinates() got an unexpected keyword argument 'lat_range'")
  | M_get_dataset => raise (TypeError "DataService._get_dataset() got an unexpected keyword argument 'lat_range'")
  | M_extract_data_by_latlon_range => raise (TypeError "DataService._extract_data_by_latlon_range() missing 6 required positional arguments: 'db', 'lat_center', 'lon_center', 'z_range', 'quality', and 'timestep'")
  | M_get_metadata => raise (TypeError "DataService.get_metadata() got an unexpected keyword argument 'lat_range'")
  | M_get_data_slice => raise (TypeError "DataService.get_data_slice() missing 3 required positional arguments: 'field', 'timestep', and 'depth_level'")
  | M_get_timestep_data => raise (TypeError "DataService.get_timestep_data() missing 2 required positional arguments: 'field' and 'timestep'")
  end.

(** [float(a), float(b)] when both query values are given *)
Definition opt_range (a b : option string) : M (option (R * R)) :=
  match a, b with
  | Some a, Some b => x <- to_float a ;; y <- to_float b ;; ret (Some (x, y))
  | _, _ => ret None
  end.

(** [/api/coordinates] (lines 167-204) *)
Definition api_coordinates (args : query) : state -> response * state :=
  handle (
    lat_range <- opt_range (dict_get "lat_min" args) (dict_get "lat_max" args) ;;
    lon_range <- opt_range (dict_get "lon_min" args) (dict_get "lon_max" args) ;;
    get_coordinates <- DataService_getattr "get_coordinates" ;;
    call_lat_lon_kwargs get_coordinates).

End Service.

Arguments state {R dataset}.
Arguments mkState {R dataset}.
Arguments init_state {R dataset}.
Arguments respond {R dataset}.
Arguments error_body {R}.
Arguments _datasets {R dataset}.
Arguments _lat_center {R dataset}.
Arguments _lon_center {R dataset}.

(** ** The Batch Loader (src/scripts/loading_data.py) *)

Section Loader.

Variable R : Type.
Variable Rle : R -> R -> bool.
(** The configured integer bounds, compared against float coordinates. *)
Variable R_of_Z : Z -> R.
Variable dataset : Type.
Variable LoadDataset : string -> exn + dataset.
Variable read : dataset -> Z -> list Z -> list Z -> list Z -> Z -> exn + ndarray.
Variable latlon_file : option (grid R * grid R).

(** The configuration constants (lines 27-43) *)
Definition QUALITY : Z := (-12)%Z.
Definition NUMBER_OF_TIME_STEPS : nat := 10312.
Definition LAT_RANGE : R * R := (R_of_Z (-40), R_of_Z (-10)).
Definition LON_RANGE : R * R := (R_of_Z 105, R_of_Z 160).
Definition Z_RANGE : list Z := [0%Z; 1%Z].
Definition SALINITY_URL : string := salt_url.

Definition DATA_DIR : string := "data".
Definition CACHE_DIR : string := ".visus_cache_can_be_deleted".

(** [extract_data_by_latlon_range] (lines 59-119) has the same body as the
    service's [_extract_data_by_latlon_range]. *)
Definition extract_data_by_latlon_range :=
  _extract_data_by_latlon_range R Rle dataset read.

(** The loop of lines 208-233: any exception is re-raised. *)
Fixpoint load_timesteps (db : dataset) (lat_center lon_center : grid R)
  (ts : list nat) : exn + list ndarray :=
  match ts with
  | [] => inr []
  | t :: ts' =>
      match extract_data_by_latlon_range db lat_center lon_center
              LAT_RANGE LON_RANGE Z_RANGE QUALITY (Z.of_nat t) with
      | inl e => inl e
      | inr (timestep_data, _, _) =>
          match load_timesteps db lat_center lon_center ts' with
          | inl e => inl e
          | inr rest => inr (timestep_data :: rest)
          end
      end
  end.

(** [np.stack(arrays, axis=0)] *)
Definition np_stack (arrs : list ndarray) : exn + ndarray :=
  match arrs with
  | [] => inl (ValueError "need at least one array to stack")
  | a :: rest =>
      if forallb (fun b => if list_eq_dec Nat.eq_dec (shape b) (shape a)
                           then true else false) rest
      then inr (mkArr (List.length arrs :: shape a) (flat_map vals arrs))
      else inl (ValueError "all input arrays must have the same shape")
  end.

Definition latlon_missing_msg : string :=
  "Latitude/longitude file not found: data/llc4320_latlon.nc
Please download llc4320_latlon.nc to the data folder.
See notebooks/LLC4320_metadata.ipynb for download instructions.".

(** [load_salinity_data] (lines 122-245); prints are left out. *)
Definition load_salinity_data : exn + (ndarray * grid R * grid R) :=
  match latlon_file with
  | None => inl (FileNotFoundError latlon_missing_msg)
  | Some (lat_center, lon_center) =>
      match LoadDataset SALINITY_URL with
      | inl e => inl e
      | inr db_salinity =>
          match extract_data_by_latlon_range db_salinity lat_center lon_center
                  LAT_RANGE LON_RANGE Z_RANGE QUALITY 0 with
          | inl e => inl e
          | inr (first_data, lat, lon) =>
              (* [first_data.shape[0..2]] for the expected shape *)
              if (List.length (shape first_data) <? 3)%nat
              then inl (IndexError "tuple index out of range")
              else
                match load_timesteps db_salinity lat_center lon_center
                        (seq 0 NUMBER_OF_TIME_STEPS) with
                | inl e => inl e
                | inr timesteps =>
                    match np_stack timesteps with
                    | inl e => inl e
                    | inr data =>
                        (* [data.shape[0..3]] in the final report *)
                        if (List.length (shape data) <? 4)%nat
                        then inl (IndexError "tuple index out of range")
                        else inr (data, lat, lon)
                    end
                end
          end
      end
  end.

(** File-system effects of a run *)
Inductive event : Type :=
| Mkdir (path : string)
| SaveArray (path : string) (a : ndarray)
| SaveGrid (path : string) (g : grid R).

(** [save_data] (lines 248-292) *)
Definition save_data (data : ndarray) (lat lon : grid R) : list event :=
  [Mkdir DATA_DIR;
   SaveArray "data/salinity_data.npy" data;
   SaveGrid "data/salinity_lat.npy" lat;
   SaveGrid "data/salinity_lon.npy" lon].

(** The [__main__] block (lines 299-324): the effects and the exit code. *)
Definition main : list event * Z :=
  let setup := [Mkdir CACHE_DIR] in
  match load_salinity_data with
  | inl _ => (setup, 1%Z)
  | inr (data, lat, lon) => (setup ++ save_data data lat lon, 0%Z)
  end.

(** An output file of the run *)
Definition writes_output (ev : event) : bool :=
  match ev with
  | Mkdir _ => false
  | SaveArray _ _ | SaveGrid _ _ => true
  end.

End Loader.

Arguments Mkdir {R}.
Arguments SaveArray {R}.
Arguments SaveGrid {R}.

(** ** Well-formed and malformed query strings of the data endpoints *)

Section Requests.

Variable R : Type.
Variable py_int : string -> option Z.
Variable py_float : string -> option R.

(** An integer parameter given with a value [int()] rejects *)
Definition int_param_bad (args : query) (k : string) : Prop :=
  exists v, dict_get k args = Some v /\ py_int v = None.

(** A required float parameter absent, or given with a value [float()]
    rejects *)
Definition float_param_bad (args : query) (k : string) : Prop :=
  dict_get k args = None \/
  exists v, dict_get k args = Some v /\ py_float v = None.

(** A query with a malformed integer parameter among [int_keys] or a
    missing or malformed lat/lon bound *)
Definition bad_query (int_keys : list string) (args : query) : Prop :=
  (exists k, In k int_keys /\ int_param_bad args k) \/
  (exists k, In k ["lat_min"; "lat_max"; "lon_min"; "lon_max"] /\
             float_param_bad args k).

(** [int(request.args.get(k, default))] evaluates to [z] *)
Definition int_param_is (args : query) (k : string) (default z : Z) : Prop :=
  match dict_get k args with
  | None => z = default
  | Some v => py_int v = Some z
  end.

(** [float(request.args.get(k))] evaluates to [r] *)
Definition float_param_is (args : query) (k : string) (r : R) : Prop :=
  exists v, dict_get k args = Some v /\ py_float v = Some r.

End Requests.

(** The exception classes of [except (ValueError, TypeError)] *)
Definition client_error (e : exn) : bool :=
  match e with
  | ValueError _ | TypeError _ => true
  | _ => false
  end.

(** ** Concrete inputs used by the counterexamples and witnesses *)

(** The (min, max) of all values of an integer-valued grid *)
Definition zspan (g : grid Z) : Z * Z :=
  let vs := List.concat g in
  (fold_left Z.min vs (hd 0%Z vs), fold_left Z.max vs (hd 0%Z vs)).

(** A 4x4 grid: longitude follows the column, latitude the row, except for
    one distorted cell (row 1, column 2) whose latitude is 9. *)
Definition lat_distorted : grid Z :=
  [[0; 0; 0; 0]; [1; 1; 9; 1]; [2; 2; 2; 2]; [3; 3; 3; 3]]%Z.
Definition lon_distorted : grid Z :=
  [[0; 1; 2; 3]; [0; 1; 2; 3]; [0; 1; 2; 3]; [0; 1; 2; 3]]%Z.

(** A dataset whose read primitive returns a (time, depth, y, x) array of
    shape (1, 1, 2) with the bit patterns 5 and 6, whatever the request. *)
Definition load_unit (url : string) : exn + unit := inr tt.
Definition read_fixed (db : unit) (time : Z) (x y z : list Z) (quality : Z)
  : exn + ndarray :=
  inr (mkArr [1; 1; 2]%nat [5; 6]%Z).

(** Decimal integer literals ([-]digits): a stand-in for Python's [int()]
    and [float()] on the query strings of the examples. *)
Fixpoint digits_value (l : list ascii) (acc : Z) : option Z :=
  match l with
  | [] => Some acc
  | c :: l' =>
      let n := nat_of_ascii c in
      if (48 <=? n)%nat && (n <=? 57)%nat
      then digits_value l' (acc * 10 + Z.of_nat (n - 48))%Z
      else None
  end.

Definition int_literal (v : string) : option Z :=
  match list_ascii_of_string v with
  | [] => None
  | c :: ds =>
      if Ascii.eqb c "-"%char
      then match ds with
           | [] => None
           | _ => option_map Z.opp (digits_value ds 0)
           end
      else digits_value (c :: ds) 0
  end.

(** A read primitive that fails at timestep 3 and returns a (1, 1, 1)
    array otherwise. *)
Definition read_fail_3 (db : unit) (time : Z) (x y z : list Z) (quality : Z)
  : exn + ndarray :=
  if (time =? 3)%Z then inl (RuntimeError "connection reset")
  else inr (mkArr [1; 1; 1]%nat [7]%Z).

(** A 1x2 coordinate file: one cell inside the loader's configured box
    (lat -20, lon 130), one outside it. *)
Definition lat_au : grid Z := [[-20; 50]]%Z.
Definition lon_au : grid Z := [[130; 0]]%Z.


(** Dataset accessors whose [getLogicBox] raises a [TypeError]. *)
Definition logic_box_type_error (db : unit) : exn + list (list Z) :=
  inl (TypeError "'NoneType' object is not subscriptable").
Definition no_timesteps (db : unit) : exn + list Z := inr [].
Definition no_field_name (db : unit) : exn + option string := inr None.

(** * Proofs *)

(** ** The Region Translator *)

Section RegionProofs.

Variable R : Type.
Variable Rle : R -> R -> bool.

Lemma where_row_spec : forall row y x y' x',
  In (y', x') (where_row y x row) <->
  y' = y /\ (x <= x')%nat /\ nth_error row (x' - x) = Some true.
Proof.
  induction row as [|b row IH]; intros y x y' x'; simpl.
  - split; [tauto|]. intros (_ & _ & H). destruct (x' - x)%nat; discriminate.
  - assert (Hrec := IH y (S x) y' x').
    destruct b; simpl; rewrite ?Hrec; split.
    + intros [H|(-> & Hle & Hn)].
      * inversion H; subst. rewrite Nat.sub_diag. auto.
      * split; [reflexivity|]. split; [lia|].
        replace (x' - x)%nat with (S (x' - S x)) by lia. exact Hn.
    + intros (-> & Hle & Hn).
      destruct (Nat.eq_dec x' x) as [->|Hne]; [left; reflexivity|right].
      split; [reflexivity|]. split; [lia|].
      replace (x' - x)%nat with (S (x' - S x)) in Hn by lia. exact Hn.
    + intros (-> & Hle & Hn). split; [reflexivity|]. split; [lia|].
      replace (x' - x)%nat with (S (x' - S x)) by lia. exact Hn.
    + intros (-> & Hle & Hn).
      destruct (Nat.eq_dec x' x) as [->|Hne].
      * rewrite Nat.sub_diag in Hn. discriminate.
      * split; [reflexivity|]. split; [lia|].
        replace (x' - x)%nat with (S (x' - S x)) in Hn by lia. exact Hn.
Qed.

Lemma np_where_spec : forall m y y' x',
  In (y', x') (np_where y m) <->
  (y <= y')%nat /\ exists row, nth_error m (y' - y) = Some row
                               /\ nth_error row x' = Some true.
Proof.
  induction m as [|row m IH]; intros y y' x'; simpl.
  - split; [tauto|]. intros (_ & row & Hn & _). destruct (y' - y)%nat; discriminate.
  - rewrite in_app_iff, where_row_spec, IH, Nat.sub_0_r. split.
    + intros [(-> & _ & Hn)|(Hle & row' & Hm & Hr)].
      * split; [lia|]. exists row. rewrite Nat.sub_diag. auto.
      * split; [lia|]. exists row'.
        replace (y' - y)%nat with (S (y' - S y)) by lia. auto.
    + intros (Hle & row' & Hm & Hr).
      destruct (Nat.eq_dec y' y) as [->|Hne].
      * left. rewrite Nat.sub_diag in Hm. inversion Hm; subst. split; [reflexivity|]. split; [lia|auto].
      * right. split; [lia|]. exists row'.
        replace (y' - y)%nat with (S (y' - S y)) in Hm by lia. auto.
Qed.

Lemma nth_error_combine_eq {A B} : forall (l1 : list A) (l2 : list B) n,
  nth_error (combine l1 l2) n =
  match nth_error l1 n, nth_error l2 n with
  | Some a, Some b => Some (a, b)
  | _, _ => None
  end.
Proof.
  induction l1 as [|a l1 IH]; intros [|b l2] [|n]; simpl; auto.
  destruct (nth_error l1 n); reflexivity.
Qed.

(** The cells [np.where] reports are exactly the matching cells. *)
Lemma np_where_mask : forall lat lon lr nr y x,
  In (y, x) (np_where 0 (mask Rle lat lon lr nr)) <-> matching Rle lat lon lr nr y x.
Proof.
  intros lat lon lr nr y x.
  rewrite np_where_spec, Nat.sub_0_r. unfold mask, matching, at2.
  rewrite nth_error_map, nth_error_combine_eq.
  split.
  - intros (_ & row & Hm & Hr).
    destruct (nth_error lat y) as [lrow|] eqn:Ey; [|discriminate].
    destruct (nth_error lon y) as [nrow|] eqn:Ey'; [|discriminate].
    simpl in Hm. inversion Hm; subst row.
    rewrite nth_error_map, nth_error_combine_eq in Hr.
    destruct (nth_error lrow x) as [a|]; [|discriminate].
    destruct (nth_error nrow x) as [b|]; [|discriminate].
    simpl in Hr. inversion Hr. eauto.
  - intros (a & b & Ha & Hb & Hin).
    destruct (nth_error lat y) as [lrow|]; [|discriminate].
    destruct (nth_error lon y) as [nrow|]; [|discriminate].
    split; [lia|]. eexists; split; [reflexivity|].
    cbn [fst snd]. rewrite nth_error_map, nth_error_combine_eq, Ha, Hb. simpl. now rewrite Hin.
Qed.

End RegionProofs.

Lemma fold_min_spec : forall l a,
  (fold_left Nat.min l a <= a)%nat /\
  (forall z, In z l -> (fold_left Nat.min l a <= z)%nat) /\
  (fold_left Nat.min l a = a \/ In (fold_left Nat.min l a) l).
Proof.
  induction l as [|h l IH]; intros a; simpl.
  - repeat split; auto. tauto.
  - destruct (IH (Nat.min a h)) as (H1 & H2 & H3).
    repeat split.
    + lia.
    + intros z [<-|Hz]; [lia|auto].
    + destruct H3 as [H3|H3]; [|auto].
      rewrite H3. destruct (Nat.min_spec a h) as [[_ ->]|[_ ->]]; auto.
Qed.

Lemma fold_max_spec : forall l a,
  (a <= fold_left Nat.max l a)%nat /\
  (forall z, In z l -> (z <= fold_left Nat.max l a)%nat) /\
  (fold_left Nat.max l a = a \/ In (fold_left Nat.max l a) l).
Proof.
  induction l as [|h l IH]; intros a; simpl.
  - repeat split; auto. tauto.
  - destruct (IH (Nat.max a h)) as (H1 & H2 & H3).
    repeat split.
    + lia.
    + intros z [<-|Hz]; [lia|auto].
    + destruct H3 as [H3|H3]; [|auto].
      rewrite H3. destruct (Nat.max_spec a h) as [[_ ->]|[_ ->]]; auto.
Qed.

Lemma arr_min_spec : forall l, l <> [] ->
  In (arr_min l) l /\ forall z, In z l -> (arr_min l <= z)%nat.
Proof.
  intros [|h t] Hne; [congruence|]. unfold arr_min; simpl.
  destruct (fold_min_spec t h) as (H1 & H2 & H3). split.
  - destruct H3 as [->|H3]; auto.
  - intros z [<-|Hz]; auto.
Qed.

Lemma arr_max_spec : forall l, l <> [] ->
  In (arr_max l) l /\ forall z, In z l -> (z <= arr_max l)%nat.
Proof.
  intros [|h t] Hne; [congruence|]. unfold arr_max; simpl.
  destruct (fold_max_spec t h) as (H1 & H2 & H3). split.
  - destruct H3 as [->|H3]; auto.
  - intros z [<-|Hz]; auto.
Qed.

Section RegionTheorems.

Variable R : Type.
Variable Rle : R -> R -> bool.

Lemma region_indices_nonempty : forall lat lon lr nr,
  np_where 0 (mask Rle lat lon lr nr) <> [] ->
  region_indices Rle lat lon lr nr =
  inr {| x_min := arr_min (map snd (np_where 0 (mask Rle lat lon lr nr)));
         x_max := arr_max (map snd (np_where 0 (mask Rle lat lon lr nr))) + 1;
         y_min := arr_min (map fst (np_where 0 (mask Rle lat lon lr nr)));
         y_max := arr_max (map fst (np_where 0 (mask Rle lat lon lr nr))) + 1 |}.
Proof.
  intros lat lon lr nr Hne. unfold region_indices.
  destruct (np_where 0 (mask Rle lat lon lr nr)) as [|p idx]; [congruence|].
  reflexivity.
Qed.

Lemma map_ne {A B} (f : A -> B) (l : list A) : l <> [] -> map f l <> [].
Proof. destruct l; simpl; congruence. Qed.

(** An extreme of the x (or y) indices is the index of a matching cell. *)
Lemma in_map_snd_matching : forall lat lon lr nr x,
  In x (map snd (np_where 0 (mask Rle lat lon lr nr))) ->
  exists y, matching Rle lat lon lr nr y x.
Proof.
  intros lat lon lr nr x Hin. apply in_map_iff in Hin.
  destruct Hin as ([y x'] & <- & Hin). exists y. now apply np_where_mask.
Qed.

Lemma in_map_fst_matching : forall lat lon lr nr y,
  In y (map fst (np_where 0 (mask Rle lat lon lr nr))) ->
  exists x, matching Rle lat lon lr nr y x.
Proof.
  intros lat lon lr nr y Hin. apply in_map_iff in Hin.
  destruct Hin as ([y' x] & <- & Hin). exists x. now apply np_where_mask.
Qed.

Lemma matching_in_where : forall lat lon lr nr y x,
  matching Rle lat lon lr nr y x ->
  In x (map snd (np_where 0 (mask Rle lat lon lr nr))) /\
  In y (map fst (np_where 0 (mask Rle lat lon lr nr))).
Proof.
  intros lat lon lr nr y x Hm. apply np_where_mask in Hm.
  split; apply in_map_iff; exists (y, x); auto.
Qed.

Lemma subgrid_at : forall (g : grid R) bx y x,
  (y_min bx <= y < y_max bx)%nat -> (x_min bx <= x < x_max bx)%nat ->
  at2 (subgrid g bx) (y - y_min bx) (x - x_min bx) = at2 g y x.
Proof.
  intros g bx y x Hy Hx. unfold subgrid, at2, py_slice.
  rewrite nth_error_map, nth_error_firstn, nth_error_skipn.
  replace (y - y_min bx <? y_max bx - y_min bx)%nat with true
    by (symmetry; apply Nat.ltb_lt; lia).
  replace (y_min bx + (y - y_min bx))%nat with y by lia.
  destruct (nth_error g y) as [row|]; simpl; [|reflexivity].
  rewrite nth_error_firstn, nth_error_skipn.
  replace (x - x_min bx <? x_max bx - x_min bx)%nat with true
    by (symmetry; apply Nat.ltb_lt; lia).
  f_equal. lia.
Qed.

(** C3 (helper form): the characterisation of the returned rectangle. *)
Lemma region_indices_rect : forall lat lon lr nr y0 x0,
  matching Rle lat lon lr nr y0 x0 ->
  exists bx, region_indices Rle lat lon lr nr = inr bx /\
    (forall y x, matching Rle lat lon lr nr y x ->
       (x_min bx <= x < x_max bx)%nat /\ (y_min bx <= y < y_max bx)%nat) /\
    (exists y, matching Rle lat lon lr nr y (x_min bx)) /\
    (exists xm, x_max bx = S xm /\ exists y, matching Rle lat lon lr nr y xm) /\
    (exists x, matching Rle lat lon lr nr (y_min bx) x) /\
    (exists ym, y_max bx = S ym /\ exists x, matching Rle lat lon lr nr ym x).
Proof.
  intros lat lon lr nr y0 x0 H0.
  assert (Hne : np_where 0 (mask Rle lat lon lr nr) <> []).
  { apply np_where_mask in H0. intros E. rewrite E in H0. exact H0. }
  rewrite (region_indices_nonempty _ _ _ _ Hne).
  eexists; split; [reflexivity|]. cbn [x_min x_max y_min y_max].
  destruct (arr_min_spec _ (map_ne snd _ Hne)) as [Hxmin Hxmin'].
  destruct (arr_max_spec _ (map_ne snd _ Hne)) as [Hxmax Hxmax'].
  destruct (arr_min_spec _ (map_ne fst _ Hne)) as [Hymin Hymin'].
  destruct (arr_max_spec _ (map_ne fst _ Hne)) as [Hymax Hymax'].
  split; [|split; [|split; [|split]]].
  - intros y x Hm. destruct (matching_in_where _ _ _ _ _ _ Hm) as [Hx Hy].
    specialize (Hxmin' _ Hx). specialize (Hxmax' _ Hx).
    specialize (Hymin' _ Hy). specialize (Hymax' _ Hy). lia.
  - now apply in_map_snd_matching.
  - eexists; split; [rewrite Nat.add_1_r; reflexivity|].
    now apply in_map_snd_matching.
  - now apply in_map_fst_matching.
  - eexists; split; [rewrite Nat.add_1_r; reflexivity|].
    now apply in_map_fst_matching.
Qed.

(** C3: for a box with at least one matching cell (bounds inclusive on all
    four edges), the Region Translator returns the minimal enclosing index
    rectangle of the matching cells, half-open: [x_min]/[y_min] are the
    minima of the matching indices, [x_max]/[y_max] their maxima plus one. *)
Theorem region_indices_minimal_rectangle : forall lat lon lat_range lon_range y0 x0,
  matching Rle lat lon lat_range lon_range y0 x0 ->
  exists bx, region_indices Rle lat lon lat_range lon_range = inr bx /\
    (forall y x, matching Rle lat lon lat_range lon_range y x ->
       (x_min bx <= x < x_max bx)%nat /\ (y_min bx <= y < y_max bx)%nat) /\
    (exists y, matching Rle lat lon lat_range lon_range y (x_min bx)) /\
    (exists xm, x_max bx = S xm /\ exists y, matching Rle lat lon lat_range lon_range y xm) /\
    (exists x, matching Rle lat lon lat_range lon_range (y_min bx) x) /\
    (exists ym, y_max bx = S ym /\ exists x, matching Rle lat lon lat_range lon_range ym x).
Proof. exact region_indices_rect. Qed.

(** C4: when no grid cell has both its lat and lon inside the box, the
    Region Translator raises the empty-region [ValueError]; and whenever it
    does return a rectangle, that rectangle is non-empty on both axes. *)
Theorem region_indices_empty_region_error : forall lat lon lat_range lon_range,
  (forall y x, ~ matching Rle lat lon lat_range lon_range y x) ->
  region_indices Rle lat lon lat_range lon_range = inl (ValueError no_data_msg) /\
  (forall lr nr bx, region_indices Rle lat lon lr nr = inr bx ->
     (x_min bx < x_max bx)%nat /\ (y_min bx < y_max bx)%nat).
Proof.
  intros lat lon lat_range lon_range Hno. split.
  - unfold region_indices.
    destruct (np_where 0 (mask Rle lat lon lat_range lon_range)) as [|[y x] idx] eqn:E;
      [reflexivity|].
    exfalso. apply (Hno y x). apply np_where_mask. rewrite E. now left.
  - intros lr nr bx H.
    destruct (np_where 0 (mask Rle lat lon lr nr)) as [|p idx] eqn:E.
    + unfold region_indices in H. rewrite E in H. discriminate.
    + assert (Hne : np_where 0 (mask Rle lat lon lr nr) <> []) by congruence.
      rewrite (region_indices_nonempty _ _ _ _ Hne) in H.
      inversion H; subst; simpl.
      destruct (arr_min_spec _ (map_ne snd _ Hne)) as [Hx _].
      destruct (arr_max_spec _ (map_ne snd _ Hne)) as [_ Hx'].
      destruct (arr_min_spec _ (map_ne fst _ Hne)) as [Hy _].
      destruct (arr_max_spec _ (map_ne fst _ Hne)) as [_ Hy'].
      specialize (Hx' _ Hx). specialize (Hy' _ Hy). lia.
Qed.

(** C2 (amended): for a box with at least one matching cell, the returned
    rectangle's lat/lon subgrids contain every grid cell whose lat and lon
    are in the box, each at its offset from [(y_min, x_min)]; the subgrid
    may also hold cells outside the box. *)
Theorem region_subgrid_covers_box_cells : forall lat lon lat_range lon_range y0 x0,
  matching Rle lat lon lat_range lon_range y0 x0 ->
  exists bx, region_indices Rle lat lon lat_range lon_range = inr bx /\
    forall y x, matching Rle lat lon lat_range lon_range y x ->
      (y_min bx <= y < y_max bx)%nat /\ (x_min bx <= x < x_max bx)%nat /\
      at2 (subgrid lat bx) (y - y_min bx) (x - x_min bx) = at2 lat y x /\
      at2 (subgrid lon bx) (y - y_min bx) (x - x_min bx) = at2 lon y x.
Proof.
  intros lat lon lat_range lon_range y0 x0 H0.
  destruct (region_indices_rect _ _ _ _ _ _ H0) as (bx & Hr & Hall & _).
  exists bx. split; [exact Hr|]. intros y x Hm.
  destruct (Hall y x Hm) as [Hx Hy].
  split; [exact Hy|]. split; [exact Hx|].
  split; apply subgrid_at; auto.
Qed.

End RegionTheorems.

Lemma at2_in_concat {R} : forall (g : grid R) y x a,
  at2 g y x = Some a -> In a (List.concat g).
Proof.
  intros g y x a H. unfold at2 in H.
  destruct (nth_error g y) as [row|] eqn:E; [|discriminate].
  apply in_concat. exists row. split; eapply nth_error_In; eauto.
Qed.

(** C2 fails: the box [lat in [1,2], lon in [1,2]] lies strictly inside the
    span of the distorted grid, yet the subgrid of the returned rectangle
    holds the latitude 9 of the distorted cell. *)
Lemma region_subgrid_outside_box_cex :
  (fst (zspan lat_distorted) < 1 /\ 2 < snd (zspan lat_distorted)
   /\ fst (zspan lon_distorted) < 1 /\ 2 < snd (zspan lon_distorted))%Z /\
  exists bx, region_indices Z.leb lat_distorted lon_distorted (1, 2)%Z (1, 2)%Z = inr bx
    /\ In 9%Z (List.concat (subgrid lat_distorted bx)) /\ (2 < 9)%Z.
Proof.
  split; [vm_compute; repeat split; reflexivity|].
  eexists; split; [vm_compute; reflexivity|].
  split; [vm_compute; tauto | lia].
Qed.

Lemma distorted_cell_1_1 :
  matching Z.leb lat_distorted lon_distorted (1, 2)%Z (1, 2)%Z 1 1.
Proof. exists 1%Z, 1%Z. repeat split. Qed.

Lemma region_subgrid_covers_box_cells_witness :
  matching Z.leb lat_distorted lon_distorted (1, 2)%Z (1, 2)%Z 1 1 /\
  exists bx, region_indices Z.leb lat_distorted lon_distorted (1, 2)%Z (1, 2)%Z = inr bx.
Proof.
  split; [exact distorted_cell_1_1|].
  destruct (region_subgrid_covers_box_cells Z Z.leb lat_distorted lon_distorted
              (1, 2)%Z (1, 2)%Z 1 1 distorted_cell_1_1) as (bx & Hr & _).
  exists bx. exact Hr.
Defined.

Lemma region_indices_minimal_rectangle_witness :
  matching Z.leb lat_distorted lon_distorted (1, 2)%Z (1, 2)%Z 1 1 /\
  exists bx, region_indices Z.leb lat_distorted lon_distorted (1, 2)%Z (1, 2)%Z = inr bx.
Proof.
  split; [exact distorted_cell_1_1|].
  destruct (region_indices_minimal_rectangle Z Z.leb lat_distorted lon_distorted
              (1, 2)%Z (1, 2)%Z 1 1 distorted_cell_1_1) as (bx & Hr & _).
  exists bx. exact Hr.
Defined.

Lemma distorted_no_cell_in_50_60 : forall y x,
  ~ matching Z.leb lat_distorted lon_distorted (50, 60)%Z (0, 3)%Z y x.
Proof.
  intros y x (a & b & Ha & Hb & Hin). apply at2_in_concat in Ha.
  simpl in Ha. unfold in_box in Hin. simpl in Hin.
  intuition subst; discriminate.
Qed.

Lemma region_indices_empty_region_error_witness :
  (forall y x, ~ matching Z.leb lat_distorted lon_distorted (50, 60)%Z (0, 3)%Z y x) /\
  region_indices Z.leb lat_distorted lon_distorted (50, 60)%Z (0, 3)%Z
    = inl (ValueError no_data_msg).
Proof.
  split; [exact distorted_no_cell_in_50_60|].
  exact (proj1 (region_indices_empty_region_error Z Z.leb lat_distorted lon_distorted
                  (50, 60)%Z (0, 3)%Z distorted_no_cell_in_50_60)).
Defined.

(** ** Serialisation: float32 bytes and base64 *)

Definition byte_range (b : Z) : Prop := (0 <= b < 256)%Z.

Lemma b64index_char : forall i, (0 <= i < 64)%Z -> b64index (b64char i) = Some i.
Proof.
  intros i Hi.
  assert (Hall : forallb (fun n => match b64index (b64char (Z.of_nat n)) with
                                   | Some j => Z.eqb j (Z.of_nat n)
                                   | None => false
                                   end) (seq 0 64) = true) by (vm_compute; reflexivity).
  rewrite forallb_forall in Hall.
  specialize (Hall (Z.to_nat i)). rewrite in_seq, Z2Nat.id in Hall by lia.
  specialize (Hall ltac:(lia)).
  destruct (b64index (b64char i)) as [j|]; [|discriminate].
  apply Z.eqb_eq in Hall. now subst.
Qed.

Lemma b64char_not_pad : forall i, (0 <= i < 64)%Z -> Ascii.eqb (b64char i) "="%char = false.
Proof.
  intros i Hi. destruct (Ascii.eqb (b64char i) "="%char) eqn:E; [|reflexivity].
  apply Ascii.eqb_eq in E. pose proof (b64index_char i Hi) as H.
  rewrite E in H. discriminate.
Qed.

Ltac six_bits := split; Z.div_mod_to_equations; lia.

Lemma b64_roundtrip : forall bs, Forall byte_range bs -> b64decode (b64encode bs) = Some bs.
Proof.
  fix IH 1.
  intros [|b0 [|b1 [|b2 rest]]] H; [reflexivity| | |].
  - inversion_clear H as [|? ? H0 _]. unfold byte_range in H0.
    cbn [b64encode b64decode].
    rewrite (b64index_char ((b0 * 65536) / 262144)) by six_bits.
    rewrite (b64index_char (((b0 * 65536) / 4096) mod 64)) by six_bits.
    cbn. do 2 f_equal. Z.div_mod_to_equations. lia.
  - inversion_clear H as [|? ? H0 H']. inversion_clear H' as [|? ? H1 _].
    unfold byte_range in H0, H1.
    cbn [b64encode b64decode].
    set (n := (b0 * 65536 + b1 * 256)%Z).
    rewrite (b64index_char (n / 262144)) by (subst n; six_bits).
    rewrite (b64index_char ((n / 4096) mod 64)) by (subst n; six_bits).
    rewrite (b64char_not_pad ((n / 64) mod 64)) by (subst n; six_bits).
    rewrite (b64index_char ((n / 64) mod 64)) by (subst n; six_bits).
    cbn. subst n.
    f_equal. f_equal; [|f_equal]; Z.div_mod_to_equations; lia.
  - inversion_clear H as [|? ? H0 H']. inversion_clear H' as [|? ? H1 H''].
    inversion_clear H'' as [|? ? H2 Hrest].
    unfold byte_range in H0, H1, H2.
    cbn [b64encode b64decode].
    set (n := (b0 * 65536 + b1 * 256 + b2)%Z).
    rewrite (b64index_char (n / 262144)) by (subst n; six_bits).
    rewrite (b64index_char ((n / 4096) mod 64)) by (subst n; six_bits).
    rewrite (b64char_not_pad ((n / 64) mod 64)) by (subst n; six_bits).
    rewrite (b64index_char ((n / 64) mod 64)) by (subst n; six_bits).
    rewrite (b64char_not_pad (n mod 64)) by (subst n; six_bits).
    rewrite (b64index_char (n mod 64)) by (subst n; six_bits).
    rewrite (IH rest Hrest). cbn. subst n.
    f_equal. f_equal; [|f_equal; [|f_equal]]; Z.div_mod_to_equations; lia.
Qed.

Lemma f32_bytes_range : forall v, (0 <= v < 4294967296)%Z ->
  Forall byte_range (f32_bytes v).
Proof.
  intros v Hv. unfold f32_bytes, byte_range.
  repeat constructor; Z.div_mod_to_equations; lia.
Qed.

Lemma tobytes_range : forall vs, Forall (fun v => 0 <= v < 4294967296)%Z vs ->
  Forall byte_range (flat_map f32_bytes vs).
Proof.
  induction 1 as [|v vs Hv _ IH]; cbn [flat_map]; [constructor|].
  apply Forall_app. split; [now apply f32_bytes_range | exact IH].
Qed.

Lemma f32_frombuffer_tobytes : forall vs, Forall (fun v => 0 <= v < 4294967296)%Z vs ->
  f32_frombuffer (flat_map f32_bytes vs) = Some vs.
Proof.
  induction 1 as [|v vs Hv _ IH]; [reflexivity|].
  cbn [flat_map f32_bytes app f32_frombuffer]. rewrite IH. cbn [option_map].
  f_equal. f_equal. Z.div_mod_to_equations. nia.
Qed.

(** C6: the ["base64"] payload carries [format "base64"], [dtype "float32"]
    and the array's shape, and base64-decoding its data, reading the bytes
    as float32 values and reshaping them by that shape gives back exactly
    the ["array"] format's nested lists. *)
Theorem serialize_base64_roundtrip : forall (R : Type) (a : ndarray),
  Forall (fun v => 0 <= v < 4294967296)%Z (vals a) ->
  jget "format" (serialize (R := R) "base64" a) = Some (JStr "base64") /\
  jget "dtype" (serialize (R := R) "base64" a) = Some (JStr "float32") /\
  jget "shape" (serialize (R := R) "base64" a) = Some (shape_json (shape a)) /\
  exists payload bytes vs,
    jget "data" (serialize (R := R) "base64" a) = Some (JStr payload) /\
    b64decode payload = Some bytes /\
    f32_frombuffer bytes = Some vs /\
    jget "data" (serialize (R := R) "array" a) = Some (nest (shape a) vs).
Proof.
  intros R a Ha. cbn.
  repeat split.
  exists (b64encode (tobytes a)), (tobytes a), (vals a).
  split; [reflexivity|]. split; [apply b64_roundtrip, tobytes_range, Ha|].
  split; [apply f32_frombuffer_tobytes, Ha|reflexivity].
Qed.

Lemma serialize_base64_roundtrip_witness :
  Forall (fun v => 0 <= v < 4294967296)%Z [5; 1078530011]%Z /\
  jget "format" (serialize (R := Z) "base64" (mkArr [1; 2]%nat [5; 1078530011]%Z))
    = Some (JStr "base64").
Proof.
  assert (H : Forall (fun v => 0 <= v < 4294967296)%Z [5; 1078530011]%Z)
    by (repeat constructor; lia).
  split; [exact H|].
  exact (proj1 (serialize_base64_roundtrip Z (mkArr [1; 2]%nat [5; 1078530011]%Z) H)).
Defined.

(** ** The Data Access Service *)

Lemma serialize_not_base64 : forall R fmt a, fmt <> "base64" ->
  serialize (R := R) fmt a = serialize "array" a.
Proof.
  intros R fmt a H. unfold serialize.
  destruct (String.eqb_spec fmt "base64"); [contradiction|reflexivity].
Qed.

Definition cache_ok {R dataset} (LoadDataset : string -> exn + dataset)
  (s : @state R dataset) : Prop :=
  forall k d, dict_get k (_datasets s) = Some d ->
  exists u, dict_get k FIELD_URLS = Some u /\ LoadDataset u = inr d.

(** A response with the echoed field name left out *)
Definition without_field {R} (j : json R) : json R :=
  match j with
  | JObj kv => JObj (filter (fun p => negb (String.eqb (fst p) "field")) kv)
  | _ => j
  end.

Definition map_result {R} (f : json R -> json R) (r : exn + json R) : exn + json R :=
  match r with
  | inl e => inl e
  | inr j => inr (f j)
  end.

(** The read primitive's output for a single depth level [z=[d, d+1]]: a
    (depth, y, x) array, or a (time, depth, y, x) one, with singleton
    depth and time axes and [y*x] elements. *)
Definition single_level (a : ndarray) : Prop :=
  exists ny nx, (shape a = [1; ny; nx] \/ shape a = [1; 1; ny; nx])%nat
                /\ List.length (vals a) = (ny * nx)%nat.

Section ServiceProofs.

Variable R : Type.
Variable Rle : R -> R -> bool.
Variable dataset : Type.
Variable LoadDataset : string -> exn + dataset.
Variable read : dataset -> Z -> list Z -> list Z -> list Z -> Z -> exn + ndarray.
Variable latlon_file : option (grid R * grid R).

Local Abbreviation GDS := (get_data_slice R Rle dataset LoadDataset read latlon_file).
Local Abbreviation GTD := (get_timestep_data R Rle dataset LoadDataset read latlon_file).
Local Abbreviation EXTRACT := (_extract_data_by_latlon_range R Rle dataset read).

Ltac run_matches :=
  repeat match goal with
         | |- context [match ?x with _ => _ end] => destruct x
         end.

(** C10: any [format_type] other than exactly ["base64"] is served as the
    ["array"] format: the call behaves as with [format_type = "array"]. *)
Theorem format_type_fallback_array : forall s field timestep depth_level
  lat_range lon_range z_range quality format_type,
  format_type <> "base64" ->
  get_data_slice R Rle dataset LoadDataset read latlon_file
    field timestep depth_level lat_range lon_range quality format_type s
  = get_data_slice R Rle dataset LoadDataset read latlon_file
    field timestep depth_level lat_range lon_range quality "array" s /\
  get_timestep_data R Rle dataset LoadDataset read latlon_file
    field timestep lat_range lon_range z_range quality format_type s
  = get_timestep_data R Rle dataset LoadDataset read latlon_file
    field timestep lat_range lon_range z_range quality "array" s.
Proof.
  intros s field timestep depth_level lat_range lon_range z_range quality fmt H.
  unfold get_data_slice, get_timestep_data, bind, ret, lift.
  split; run_matches; try reflexivity;
    rewrite (serialize_not_base64 R fmt _ H); reflexivity.
Qed.

Lemma take0_firstn : forall a n s,
  shape a = S n :: s -> take0 0 a = inr (mkArr s (firstn (prod_dims s) (vals a))).
Proof. intros a n s H. unfold take0. now rewrite H. Qed.

(** C5: [get_data_slice] at depth level [d] and [get_timestep_data] with
    [z_range = [d, d+1]] make the same read and return the same values,
    2D [(y, x)] for the first and 3D [(1, y, x)] for the second. *)
Theorem slice_timestep_same_values : forall s field timestep d
  lat_range lon_range quality format_type,
  (forall db xr yr a, read db timestep xr yr [d; (d + 1)%Z] quality = inr a ->
                      single_level a) ->
  match GDS field timestep d lat_range lon_range quality format_type s,
        GTD field timestep lat_range lon_range [d; (d + 1)%Z] quality format_type s with
  | (inr j1, s1), (inr j2, s2) =>
      s1 = s2 /\
      jget "coordinates" j1 = jget "coordinates" j2 /\
      exists ny nx vs,
        jget "data" j1 = Some (serialize format_type (mkArr [ny; nx] vs)) /\
        jget "data" j2 = Some (serialize format_type (mkArr [1; ny; nx]%nat vs)) /\
        jget "shape" j1 = Some (shape_json [ny; nx]) /\
        jget "shape" j2 = Some (shape_json [1; ny; nx]%nat)
  | (inl e1, s1), (inl e2, s2) => e1 = e2 /\ s1 = s2
  | _, _ => False
  end.
Proof.
  intros s field t d lr nr q fmt Hread.
  unfold get_data_slice, get_timestep_data, bind, ret, lift.
  destruct (_load_coordinates R dataset latlon_file s) as [[e|u] s1]; [auto|].
  destruct (_get_dataset R dataset LoadDataset field s1) as [[e|db] s2]; [auto|].
  destruct (coords R dataset s2) as [[e|[la lo]] s3]; [auto|].
  destruct (EXTRACT db (fst (la, lo)) (snd (la, lo)) lr nr [d; (d + 1)%Z] q t)
    as [e|[[data lat] lon]] eqn:Ex; [auto|].
  assert (Hs : single_level data).
  { unfold _extract_data_by_latlon_range in Ex.
    destruct (region_indices Rle _ _ lr nr); [discriminate|].
    destruct (read db t _ _ _ q) eqn:Er; [discriminate|].
    inversion Ex; subst. eapply Hread. exact Er. }
  destruct Hs as (ny & nx & [Hsh|Hsh] & Hlen).
  - unfold slice_2d, drop_time. rewrite Hsh. cbn [List.length].
    rewrite (take0_firstn data 0 [ny; nx] Hsh).
    replace (firstn (prod_dims [ny; nx]) (vals data)) with (vals data)
      by (symmetry; apply firstn_all2; unfold prod_dims; simpl; lia).
    cbn beta iota. split; [reflexivity|]. split; [reflexivity|].
    exists ny, nx, (vals data).
    destruct data as [sh vs]; cbn in Hsh; subst sh. repeat split.
  - unfold slice_2d, drop_time. rewrite Hsh. cbn [List.length].
    rewrite (take0_firstn data 0 [1; ny; nx]%nat Hsh).
    unfold take0 at 1. cbn [shape vals].
    replace (firstn (prod_dims [1; ny; nx]%nat) (vals data)) with (vals data)
      by (symmetry; apply firstn_all2; unfold prod_dims; simpl; lia).
    replace (firstn (prod_dims [ny; nx]) (vals data)) with (vals data)
      by (symmetry; apply firstn_all2; unfold prod_dims; simpl; lia).
    split; [reflexivity|]. split; [reflexivity|].
    exists ny, nx, (vals data). repeat split.
Qed.

End ServiceProofs.

Lemma dict_get_app_one {V} : forall (d : list (string * V)) k k' v,
  dict_get k (d ++ [(k', v)]) =
  match dict_get k d with
  | Some x => Some x
  | None => if String.eqb k k' then Some v else None
  end.
Proof.
  induction d as [|[k0 v0] d IH]; intros k k' v; simpl.
  - destruct (String.eqb k k'); reflexivity.
  - destruct (String.eqb k k0); [reflexivity|apply IH].
Qed.

Section AliasProofs.

Variable R : Type.
Variable Rle : R -> R -> bool.
Variable dataset : Type.
Variable LoadDataset : string -> exn + dataset.
Variable read : dataset -> Z -> list Z -> list Z -> list Z -> Z -> exn + ndarray.
Variable latlon_file : option (grid R * grid R).

Local Abbreviation GDS := (get_data_slice R Rle dataset LoadDataset read latlon_file).
Local Abbreviation GTD := (get_timestep_data R Rle dataset LoadDataset read latlon_file).

Lemma cache_ok_init : cache_ok LoadDataset (@init_state R dataset).
Proof. intros k d H. discriminate. Qed.

Lemma load_coordinates_datasets : forall s,
  _datasets (snd (_load_coordinates R dataset latlon_file s)) = _datasets s.
Proof.
  intros s. unfold _load_coordinates.
  destruct (_lat_center s), (_lon_center s); try reflexivity;
    destruct latlon_file as [[la lo]|]; reflexivity.
Qed.

(** The dataset cache only ever holds [LoadDataset] of the field's URL. *)
Lemma get_dataset_cache_ok : forall s f,
  cache_ok LoadDataset s ->
  cache_ok LoadDataset (snd (_get_dataset R dataset LoadDataset f s)).
Proof.
  intros s f Hc. unfold _get_dataset.
  destruct (dict_get (py_lower f) FIELD_URLS) as [u|] eqn:Hu; [|exact Hc].
  destruct (dict_get (py_lower f) (_datasets s)) as [d|] eqn:Hd; [exact Hc|].
  destruct (LoadDataset u) as [e|d] eqn:Hl; [exact Hc|].
  intros k d' Hk. cbn [snd _datasets] in Hk. unfold dict_set in Hk.
  rewrite Hd, dict_get_app_one in Hk.
  destruct (dict_get k (_datasets s)) as [x|] eqn:Hx.
  - inversion Hk; subst. now apply Hc.
  - destruct (String.eqb_spec k (py_lower f)); [|discriminate].
    inversion Hk; subst. exists u. auto.
Qed.

Lemma get_dataset_known : forall s f u,
  cache_ok LoadDataset s -> dict_get (py_lower f) FIELD_URLS = Some u ->
  fst (_get_dataset R dataset LoadDataset f s) = LoadDataset u /\
  _lat_center (snd (_get_dataset R dataset LoadDataset f s)) = _lat_center s /\
  _lon_center (snd (_get_dataset R dataset LoadDataset f s)) = _lon_center s.
Proof.
  intros s f u Hc Hu. unfold _get_dataset. rewrite Hu.
  destruct (dict_get (py_lower f) (_datasets s)) as [d|] eqn:Hd.
  - destruct (Hc _ _ Hd) as (u' & Hu' & Hl). rewrite Hu in Hu'.
    inversion Hu'; subst. auto.
  - destruct (LoadDataset u); auto.
Qed.

Ltac run_matches :=
  repeat (cbn beta iota zeta;
          match goal with
          | |- context [match ?x with _ => _ end] =>
              lazymatch x with
              | context [match _ with _ => _ end] => fail
              | _ => destruct x
              end
          end).

(** C7: ["salt"] and ["salinity"] resolve to the same URL, and any two
    field names whose lowercase forms map to the same URL (aliases, or
    any casing of a known name) give the same outcome, apart from the
    echoed field name, for every other parameter, from any reachable
    state of the dataset cache. *)
Theorem field_alias_same_data :
  dict_get (py_lower "salt") FIELD_URLS = dict_get (py_lower "salinity") FIELD_URLS /\
  forall s f1 f2 u timestep depth_level lat_range lon_range z_range quality format_type,
  cache_ok LoadDataset s ->
  dict_get (py_lower f1) FIELD_URLS = Some u ->
  dict_get (py_lower f2) FIELD_URLS = Some u ->
  map_result without_field
    (fst (GDS f1 timestep depth_level lat_range lon_range quality format_type s))
  = map_result without_field
    (fst (GDS f2 timestep depth_level lat_range lon_range quality format_type s)) /\
  map_result without_field
    (fst (GTD f1 timestep lat_range lon_range z_range quality format_type s))
  = map_result without_field
    (fst (GTD f2 timestep lat_range lon_range z_range quality format_type s)).
Proof.
  split; [reflexivity|].
  intros s f1 f2 u t d lr nr zr q fmt Hc H1 H2.
  unfold get_data_slice, get_timestep_data, bind, ret, lift.
  pose proof (load_coordinates_datasets s) as Hds.
  destruct (_load_coordinates R dataset latlon_file s) as [[e|[]] s1]; [split; reflexivity|].
  assert (Hc1 : cache_ok LoadDataset s1).
  { intros k dd Hk. apply Hc. cbn [snd] in Hds. now rewrite <- Hds. }
  destruct (get_dataset_known s1 f1 u Hc1 H1) as (E1 & E1a & E1b).
  destruct (get_dataset_known s1 f2 u Hc1 H2) as (E2 & E2a & E2b).
  destruct (_get_dataset R dataset LoadDataset f1 s1) as [r1 s1a].
  destruct (_get_dataset R dataset LoadDataset f2 s1) as [r2 s1b].
  cbn [fst snd] in *. subst r1 r2.
  destruct (LoadDataset u) as [e|db]; [split; reflexivity|].
  unfold coords. rewrite E1a, E1b, E2a, E2b.
  split; run_matches; reflexivity.
Qed.

End AliasProofs.

(** The concrete service used by the witnesses: integer coordinates, the
    distorted grid, and [read_fixed]. *)
Lemma read_fixed_single_level : forall db xr yr a,
  read_fixed db 0 xr yr [0%Z; (0 + 1)%Z] (-12) = inr a -> single_level a.
Proof.
  intros db xr yr a H. inversion H; subst.
  exists 1%nat, 2%nat. split; [left; reflexivity|reflexivity].
Qed.

Lemma slice_timestep_same_values_witness :
  (forall db xr yr a, read_fixed db 0 xr yr [0%Z; (0 + 1)%Z] (-12) = inr a -> single_level a) /\
  fst (get_data_slice Z Z.leb unit load_unit read_fixed
         (Some (lat_distorted, lon_distorted)) "salinity" 0 0 (1, 2)%Z (1, 2)%Z (-12) "array"
         init_state)
  = inr (JObj [("field", JStr "salinity"); ("timestep", JInt 0); ("depth_level", JInt 0);
               ("data", JObj [("format", JStr "array");
                              ("data", JArr [JArr [JF32 5; JF32 6]])]);
               ("coordinates", JObj [("latitude", JArr [JArr [JNum 1; JNum 9]; JArr [JNum 2; JNum 2]]);
                                     ("longitude", JArr [JArr [JNum 1; JNum 2]; JArr [JNum 1; JNum 2]])]);
               ("shape", JArr [JInt 1; JInt 2]);
               ("lat_range", JArr [JNum 1; JNum 2]); ("lon_range", JArr [JNum 1; JNum 2]);
               ("quality", JInt (-12))])%Z.
Proof.
  split; [exact read_fixed_single_level|].
  pose proof (slice_timestep_same_values Z Z.leb unit load_unit read_fixed
                (Some (lat_distorted, lon_distorted)) init_state "salinity" 0 0
                (1, 2)%Z (1, 2)%Z (-12) "array" read_fixed_single_level) as H.
  vm_compute. reflexivity.
Defined.

Lemma format_type_fallback_array_witness :
  "Base64" <> "base64" /\
  get_data_slice Z Z.leb unit load_unit read_fixed (Some (lat_distorted, lon_distorted))
    "salinity" 0 0 (1, 2)%Z (1, 2)%Z (-12) "Base64" init_state
  = get_data_slice Z Z.leb unit load_unit read_fixed (Some (lat_distorted, lon_distorted))
    "salinity" 0 0 (1, 2)%Z (1, 2)%Z (-12) "array" init_state.
Proof.
  assert (H : "Base64" <> "base64") by discriminate.
  split; [exact H|].
  exact (proj1 (format_type_fallback_array Z Z.leb unit load_unit read_fixed
                  (Some (lat_distorted, lon_distorted)) init_state "salinity" 0 0
                  (1, 2)%Z (1, 2)%Z [0; 1]%Z (-12) "Base64" H)).
Defined.

Lemma field_alias_same_data_witness :
  cache_ok load_unit (@init_state Z unit) /\
  dict_get (py_lower "SALT") FIELD_URLS = Some salt_url /\
  dict_get (py_lower "salinity") FIELD_URLS = Some salt_url /\
  map_result without_field
    (fst (get_data_slice Z Z.leb unit load_unit read_fixed (Some (lat_distorted, lon_distorted))
            "SALT" 0 0 (1, 2)%Z (1, 2)%Z (-12) "base64" init_state))
  = map_result without_field
    (fst (get_data_slice Z Z.leb unit load_unit read_fixed (Some (lat_distorted, lon_distorted))
            "salinity" 0 0 (1, 2)%Z (1, 2)%Z (-12) "base64" init_state)).
Proof.
  assert (Hc : cache_ok load_unit (@init_state Z unit)) by (intros k d H; discriminate).
  assert (H1 : dict_get (py_lower "SALT") FIELD_URLS = Some salt_url) by reflexivity.
  assert (H2 : dict_get (py_lower "salinity") FIELD_URLS = Some salt_url) by reflexivity.
  split; [exact Hc|]. split; [exact H1|]. split; [exact H2|].
  exact (proj1 (proj2 (field_alias_same_data Z Z.leb unit load_unit read_fixed
                         (Some (lat_distorted, lon_distorted)))
                  init_state "SALT" "salinity" salt_url 0%Z 0%Z (1, 2)%Z (1, 2)%Z [0; 1]%Z
                  (-12)%Z "base64" Hc H1 H2)).
Defined.

(** ** The Batch Loader persists nothing when a timestep fails *)

Section LoaderProofs.

Variable R : Type.
Variable Rle : R -> R -> bool.
Variable R_of_Z : Z -> R.
Variable dataset : Type.
Variable LoadDataset : string -> exn + dataset.
Variable read : dataset -> Z -> list Z -> list Z -> list Z -> Z -> exn + ndarray.
Variable latlon_file : option (grid R * grid R).

Local Abbreviation extract_at db la lo t :=
  (extract_data_by_latlon_range R Rle dataset read db la lo
     (LAT_RANGE R R_of_Z) (LON_RANGE R R_of_Z) Z_RANGE QUALITY t).

(** The loop re-raises: one failing timestep of the list fails the loop. *)
Lemma load_timesteps_fails db la lo ts t e :
  In t ts ->
  extract_at db la lo (Z.of_nat t) = inl e ->
  exists e', load_timesteps R Rle R_of_Z dataset read db la lo ts = inl e'.
Proof.
  induction ts as [|a ts IH]; cbn [In]; [tauto|].
  intros [-> | Hin] Hx; cbn [load_timesteps].
  - rewrite Hx. eauto.
  - destruct (extract_at db la lo (Z.of_nat a)) as [e0 | [[d l1] l2]]; [eauto|].
    destruct (IH Hin Hx) as [e' ->]. eauto.
Qed.

(** C8: when the coordinate file and the dataset load and the read of some
    timestep t in [0, NUMBER_OF_TIME_STEPS) fails, the run exits with
    status 1 and its only file-system effect is creating the cache
    directory: none of the three output arrays is saved. *)
Theorem batch_abort_no_output la lo db t e :
  latlon_file = Some (la, lo) ->
  LoadDataset SALINITY_URL = inr db ->
  (t < NUMBER_OF_TIME_STEPS)%nat ->
  extract_at db la lo (Z.of_nat t) = inl e ->
  main R Rle R_of_Z dataset LoadDataset read latlon_file
    = ([Mkdir CACHE_DIR], 1%Z) /\
  (forall ev, In ev (fst (main R Rle R_of_Z dataset LoadDataset read latlon_file)) ->
   writes_output R ev = false).
Proof.
  intros Hf Hl Ht Hx.
  assert (Hm : main R Rle R_of_Z dataset LoadDataset read latlon_file
               = ([Mkdir CACHE_DIR], 1%Z)).
  { unfold main, load_salinity_data. rewrite Hf, Hl.
    destruct (extract_at db la lo 0%Z) as [e0 | [[fd lat] lon]]; [reflexivity|].
    destruct (List.length (shape fd) <? 3)%nat; [reflexivity|].
    assert (Hin : In t (seq 0 NUMBER_OF_TIME_STEPS)) by (apply in_seq; lia).
    destruct (load_timesteps_fails db la lo _ t e Hin Hx) as [e' ->].
    reflexivity. }
  split; [exact Hm|].
  rewrite Hm. cbn [fst In]. intros ev [<- | []]. reflexivity.
Qed.

End LoaderProofs.

Lemma batch_abort_no_output_witness :
  main Z Z.leb id unit load_unit read_fail_3 (Some (lat_au, lon_au))
    = ([Mkdir CACHE_DIR], 1%Z) /\
  (forall ev, In ev (fst (main Z Z.leb id unit load_unit read_fail_3 (Some (lat_au, lon_au)))) ->
   writes_output Z ev = false).
Proof.
  apply (batch_abort_no_output Z Z.leb id unit load_unit read_fail_3
           (Some (lat_au, lon_au)) lat_au lon_au tt 3%nat
           (RuntimeError "Failed to read data at timestep 3: connection reset")).
  - reflexivity.
  - reflexivity.
  - apply Nat.ltb_lt. vm_compute. reflexivity.
  - vm_compute. reflexivity.
Defined.

(** ** Status codes of the Flask handlers *)

Section AppProofs.

Variable R : Type.
Variable Rle : R -> R -> bool.
Variable dataset : Type.
Variable LoadDataset : string -> exn + dataset.
Variable read : dataset -> Z -> list Z -> list Z -> list Z -> Z -> exn + ndarray.
Variable latlon_file : option (grid R * grid R).
Variable py_int : string -> option Z.
Variable py_float : string -> option R.

Local Abbreviation ADS :=
  (api_data_slice R Rle dataset LoadDataset read latlon_file py_int py_float).
Local Abbreviation ATD :=
  (api_timestep_data R Rle dataset LoadDataset read latlon_file py_int py_float).
Local Abbreviation GDS := (get_data_slice R Rle dataset LoadDataset read latlon_file).
Local Abbreviation GTD := (get_timestep_data R Rle dataset LoadDataset read latlon_file).

Ltac parse_cases args :=
  repeat (cbn beta iota zeta;
          match goal with
          | |- context [match dict_get ?k args with _ => _ end] =>
              let H := fresh "Hk" in destruct (dict_get k args) eqn:H
          | |- context [match py_int ?v with _ => _ end] =>
              let H := fresh "Hp" in destruct (py_int v) eqn:H
          | |- context [match py_float ?v with _ => _ end] =>
              let H := fresh "Hp" in destruct (py_float v) eqn:H
          end).

Ltac refute_bad Hbad :=
  exfalso;
  unfold bad_query, int_param_bad, float_param_bad in Hbad;
  destruct Hbad as [(k & Hin & v & Hv & Hpv) | (k & Hin & [Hv | (v & Hv & Hpv)])];
  cbn [In] in Hin;
  repeat destruct Hin as [<- | Hin]; try contradiction; congruence.

Lemma arg_int_is args k d z s :
  int_param_is py_int args k d z ->
  arg_int R dataset py_int args k d s = (inr z, s).
Proof.
  unfold int_param_is, arg_int, to_int, ret.
  destruct (dict_get k args); [intros -> | intros ->]; reflexivity.
Qed.

Lemma arg_float_is args k r s :
  float_param_is R py_float args k r ->
  arg_float R dataset py_float args k s = (inr r, s).
Proof.
  unfold float_param_is, arg_float, to_float, ret.
  intros (v & -> & ->). reflexivity.
Qed.

(** C9 (amended): on both data endpoints, a malformed integer parameter or
    a missing or malformed lat/lon bound gives HTTP 400 with an error
    starting "Invalid parameter: " (the state untouched); once the query
    is well formed, the response is [respond] applied to the service
    call's outcome, and [respond] maps an exception by its class: every
    [ValueError] or [TypeError] (the service's unknown-field and
    empty-region errors included) to 400 "Invalid parameter: " ++ str(e),
    every other exception (the wrapped read failure, the missing
    coordinate file, ...) to 500 with str(e). *)
Theorem api_error_status :
  (forall args s, bad_query R py_int py_float ["timestep"; "depth_level"; "quality"] args ->
   exists m, ADS args s = ((400%Z, error_body ("Invalid parameter: " ++ m)), s)) /\
  (forall args s, bad_query R py_int py_float ["timestep"; "z_min"; "z_max"; "quality"] args ->
   exists m, ATD args s = ((400%Z, error_body ("Invalid parameter: " ++ m)), s)) /\
  (forall args s t d q la1 la2 lo1 lo2,
   int_param_is py_int args "timestep" 0 t ->
   int_param_is py_int args "depth_level" 0 d ->
   int_param_is py_int args "quality" (-12) q ->
   float_param_is R py_float args "lat_min" la1 -> float_param_is R py_float args "lat_max" la2 ->
   float_param_is R py_float args "lon_min" lo1 -> float_param_is R py_float args "lon_max" lo2 ->
   ADS args s = respond (GDS (arg_str args "field" "salinity") t d (la1, la2) (lo1, lo2) q
                             (arg_str args "format" "array") s)) /\
  (forall args s t z1 z2 q la1 la2 lo1 lo2,
   int_param_is py_int args "timestep" 0 t ->
   int_param_is py_int args "z_min" 0 z1 ->
   int_param_is py_int args "z_max" 1 z2 ->
   int_param_is py_int args "quality" (-12) q ->
   float_param_is R py_float args "lat_min" la1 -> float_param_is R py_float args "lat_max" la2 ->
   float_param_is R py_float args "lon_min" lo1 -> float_param_is R py_float args "lon_max" lo2 ->
   ATD args s = respond (GTD (arg_str args "field" "salinity") t (la1, la2) (lo1, lo2)
                             [z1; z2] q (arg_str args "format" "array") s)) /\
  (forall (e : exn) (s : state),
   respond (R:=R) (dataset:=dataset) (inl e, s)
   = if client_error e
     then ((400%Z, error_body ("Invalid parameter: " ++ exn_msg e)), s)
     else ((500%Z, error_body (exn_msg e)), s)).
Proof.
  split; [|split; [|split; [|split]]].
  - intros args s Hbad.
    unfold api_data_slice, handle, arg_int, arg_float, to_int, to_float, bind, ret, raise.
    parse_cases args; try (eexists; reflexivity); refute_bad Hbad.
  - intros args s Hbad.
    unfold api_timestep_data, handle, arg_int, arg_float, to_int, to_float, bind, ret, raise.
    parse_cases args; try (eexists; reflexivity); refute_bad Hbad.
  - intros args s t d q la1 la2 lo1 lo2 Ht Hd Hq H1 H2 H3 H4.
    unfold api_data_slice, handle, bind.
    rewrite (arg_int_is _ _ _ _ s Ht); cbn beta iota.
    rewrite (arg_int_is _ _ _ _ s Hd); cbn beta iota.
    rewrite (arg_int_is _ _ _ _ s Hq); cbn beta iota.
    rewrite (arg_float_is _ _ _ s H1); cbn beta iota.
    rewrite (arg_float_is _ _ _ s H2); cbn beta iota.
    rewrite (arg_float_is _ _ _ s H3); cbn beta iota.
    rewrite (arg_float_is _ _ _ s H4); cbn beta iota.
    reflexivity.
  - intros args s t z1 z2 q la1 la2 lo1 lo2 Ht H5 H6 Hq H1 H2 H3 H4.
    unfold api_timestep_data, handle, bind.
    rewrite (arg_int_is _ _ _ _ s Ht); cbn beta iota.
    rewrite (arg_int_is _ _ _ _ s H5); cbn beta iota.
    rewrite (arg_int_is _ _ _ _ s H6); cbn beta iota.
    rewrite (arg_int_is _ _ _ _ s Hq); cbn beta iota.
    rewrite (arg_float_is _ _ _ s H1); cbn beta iota.
    rewrite (arg_float_is _ _ _ s H2); cbn beta iota.
    rewrite (arg_float_is _ _ _ s H3); cbn beta iota.
    rewrite (arg_float_is _ _ _ s H4); cbn beta iota.
    reflexivity.
  - intros [m|m|m|m|m|m] s; reflexivity.
Qed.

End AppProofs.

(** ** The coordinates endpoint *)

Section CoordinatesProofs.

Variable R : Type.
Variable dataset : Type.
Variable py_float : string -> option R.

(** C1: [DataService] defines no [get_coordinates], so for every query
    whose given lat/lon bounds parse (none given, or both ranges given),
    [/api/coordinates] fails on the attribute lookup and answers HTTP 500
    with the [AttributeError] message instead of the coordinate grid, the
    state untouched. *)
Theorem api_coordinates_attribute_error : forall (args : query) (s : @state R dataset),
  (forall k v, In k ["lat_min"; "lat_max"; "lon_min"; "lon_max"] ->
   dict_get k args = Some v -> py_float v <> None) ->
  api_coordinates R dataset py_float args s
  = ((500%Z, error_body "'DataService' object has no attribute 'get_coordinates'"), s).
Proof.
  intros args s Hok.
  unfold api_coordinates, handle, opt_range, DataService_getattr, to_float, bind, ret, raise.
  repeat (cbn beta iota zeta;
          match goal with
          | |- context [match dict_get ?k args with _ => _ end] =>
              let H := fresh "Hk" in destruct (dict_get k args) eqn:H
          | |- context [match py_float ?v with _ => _ end] =>
              let H := fresh "Hp" in destruct (py_float v) eqn:H
          end);
  try reflexivity;
  exfalso;
  match goal with
  | Hp : py_float ?v = None, Hk : dict_get ?k args = Some ?v |- _ =>
      apply (Hok k v); [cbn [In]; repeat (first [left; reflexivity | right]) | exact Hk | exact Hp]
  end.
Qed.

End CoordinatesProofs.

(** A well-formed query asking for the loader's region *)
Definition au_box_query : query :=
  [("lat_min", "-40"); ("lat_max", "-10"); ("lon_min", "105"); ("lon_max", "160")].

(** A well-formed query whose box no cell of [lat_distorted] matches *)
Definition empty_box_query : query :=
  [("lat_min", "50"); ("lat_max", "60"); ("lon_min", "0"); ("lon_max", "3")].

Lemma api_coordinates_attribute_error_witness :
  api_coordinates Z unit int_literal au_box_query init_state
  = ((500%Z, error_body "'DataService' object has no attribute 'get_coordinates'"),
     init_state).
Proof.
  apply api_coordinates_attribute_error.
  intros k v Hk Hd. cbn [In] in Hk.
  repeat destruct Hk as [<- | Hk]; try contradiction;
    cbn in Hd; injection Hd as <-; discriminate.
Defined.

(** C9 counterexample: every parameter of the query is present and
    well formed, the service raises the empty-region [ValueError], and the
    handler answers HTTP 400, not 500. *)
Lemma api_error_status_cex :
  (forall k, In k ["lat_min"; "lat_max"; "lon_min"; "lon_max"] ->
   exists r, float_param_is Z int_literal empty_box_query k r) /\
  fst (api_data_slice Z Z.leb unit load_unit read_fixed
         (Some (lat_distorted, lon_distorted)) int_literal int_literal
         empty_box_query init_state)
  = (400%Z, error_body "Invalid parameter: No data found in the given lat/lon range.").
Proof.
  split.
  - intros k Hk. cbn [In] in Hk.
    repeat destruct Hk as [<- | Hk]; try contradiction;
      unfold float_param_is; eexists; eexists; split; reflexivity.
  - vm_compute. reflexivity.
Qed.

Lemma api_error_status_witness :
  bad_query Z int_literal int_literal ["timestep"; "depth_level"; "quality"]
    [("lat_min", "1"); ("lat_max", "x")] /\
  (exists m, api_data_slice Z Z.leb unit load_unit read_fixed
               (Some (lat_distorted, lon_distorted)) int_literal int_literal
               [("lat_min", "1"); ("lat_max", "x")] init_state
             = ((400%Z, error_body ("Invalid parameter: " ++ m)), init_state)) /\
  respond (R:=Z) (dataset:=unit) (inl (RuntimeError "Failed to read data at timestep 0: boom"), init_state)
  = ((500%Z, error_body "Failed to read data at timestep 0: boom"), init_state).
Proof.
  assert (Hb : bad_query Z int_literal int_literal ["timestep"; "depth_level"; "quality"]
                 [("lat_min", "1"); ("lat_max", "x")]).
  { right. exists "lat_max". split; [cbn; tauto|].
    right. exists "x". split; reflexivity. }
  pose proof (api_error_status Z Z.leb unit load_unit read_fixed
                (Some (lat_distorted, lon_distorted)) int_literal int_literal) as H.
  split; [exact Hb|]. split.
  - exact (proj1 H _ init_state Hb).
  - exact (proj2 (proj2 (proj2 (proj2 H))) (RuntimeError "Failed to read data at timestep 0: boom") init_state).
Defined.

(** ** Serialisation shapes and sizes *)

Lemma b64encode_length : forall bs,
  String.length (b64encode bs) = (4 * ((List.length bs + 2) / 3))%nat.
Proof.
  fix IH 1.
  intros [|b0 [|b1 [|b2 rest]]]; try reflexivity.
  cbn [b64encode String.length List.length]. rewrite IH.
  replace (S (S (S (List.length rest))) + 2)%nat
    with ((List.length rest + 2) + 1 * 3)%nat by lia.
  rewrite Nat.div_add by lia. lia.
Qed.

Lemma tobytes_length : forall a, List.length (tobytes a) = (4 * List.length (vals a))%nat.
Proof.
  intros [sh vs]. unfold tobytes. cbn [vals].
  induction vs as [|v vs IH]; [reflexivity|].
  cbn [flat_map List.length]. rewrite length_app, IH. cbn. lia.
Qed.

(** The ["base64"] payload of an array of n float32 elements is a string
    of 4 * ceil(4n / 3) characters, padding included. *)
Theorem serialize_base64_data_length : forall (R : Type) (a : ndarray),
  exists str, jget "data" (serialize (R := R) "base64" a) = Some (JStr str) /\
  String.length str = (4 * ((4 * List.length (vals a) + 2) / 3))%nat.
Proof.
  intros R a. eexists. split; [reflexivity|].
  rewrite b64encode_length, tobytes_length. reflexivity.
Qed.

Lemma hd_py_slice_one {A} (d : A) : forall (l : list A) j,
  hd d (py_slice j (S j) l) = nth j l d.
Proof.
  unfold py_slice. intros l j. replace (S j - j)%nat with 1%nat by lia.
  revert l. induction j as [|j IH]; intros [|x l]; try reflexivity.
  cbn [skipn nth]. apply IH.
Qed.

Lemma nth_py_slice {A} (d : A) : forall (l : list A) a b j,
  (j < b - a)%nat -> nth j (py_slice a b l) d = nth (a + j) l d.
Proof.
  unfold py_slice. intros l a b j Hj.
  rewrite nth_firstn. replace (j <? b - a)%nat with true by (symmetry; apply Nat.ltb_lt; lia).
  clear Hj. revert l. induction a as [|a IH]; intros l; [reflexivity|].
  destruct l as [|x l].
  - cbn. destruct j; reflexivity.
  - cbn [skipn]. rewrite IH. reflexivity.
Qed.

(** [tolist()] of a 2D float32 array of shape (h, w) with h * w elements is
    a list of h rows of w numbers, element (i, j) being the element at
    row-major position i * w + j. *)
Theorem tolist_2d_row_major : forall (R : Type) (h w : nat) (vs : list f32),
  List.length vs = (h * w)%nat ->
  tolist (R := R) (mkArr [h; w] vs)
  = JArr (map (fun i => JArr (map (fun j => JF32 (nth (i * w + j) vs 0%Z)) (seq 0 w)))
              (seq 0 h)).
Proof.
  intros R h w vs _. unfold tolist. cbn [shape vals nest prod_dims fold_right].
  f_equal. apply map_ext. intros i. rewrite Nat.mul_1_r.
  f_equal. apply map_ext_in. intros j Hj. apply in_seq in Hj.
  rewrite !Nat.mul_1_r, hd_py_slice_one, nth_py_slice by lia.
  reflexivity.
Qed.



(** ** The region translator's index box *)

Lemma in_py_slice {A} (x : A) a b l : In x (py_slice a b l) -> In x l.
Proof.
  unfold py_slice. intros H.
  rewrite <- (firstn_skipn a l). apply in_or_app. right.
  rewrite <- (firstn_skipn (b - a) (skipn a l)). apply in_or_app. left. exact H.
Qed.

Lemma length_py_slice {A} a b (l : list A) :
  List.length (py_slice a b l) = Nat.min (b - a) (List.length l - a).
Proof. unfold py_slice. now rewrite length_firstn, length_skipn. Qed.

Lemma at2_bounds {R} (g : grid R) y x a w :
  Forall (fun row => List.length row = w) g -> at2 g y x = Some a ->
  (y < List.length g)%nat /\ (x < w)%nat.
Proof.
  intros Hw. unfold at2. destruct (nth_error g y) as [row|] eqn:E; [|discriminate].
  intros Hx. rewrite Forall_forall in Hw.
  rewrite <- (Hw row (nth_error_In _ _ E)).
  split; apply nth_error_Some; congruence.
Qed.

Section RegionExtras.

Variable R : Type.
Variable Rle : R -> R -> bool.

Lemma region_indices_some_match : forall lat lon lr nr bx,
  region_indices Rle lat lon lr nr = inr bx -> exists y x, matching Rle lat lon lr nr y x.
Proof.
  intros lat lon lr nr bx H.
  destruct (np_where 0 (mask Rle lat lon lr nr)) as [|[y x] rest] eqn:E.
  - unfold region_indices in H. rewrite E in H. discriminate.
  - exists y, x. apply (np_where_mask R Rle). rewrite E. left. reflexivity.
Qed.

Lemma subgrid_dims : forall (g : grid R) bx h w,
  List.length g = h -> Forall (fun row => List.length row = w) g ->
  (x_max bx <= w)%nat -> (y_max bx <= h)%nat ->
  List.length (subgrid g bx) = (y_max bx - y_min bx)%nat /\
  Forall (fun row => List.length row = (x_max bx - x_min bx)%nat) (subgrid g bx).
Proof.
  intros g bx h w Hh Hw Hx Hy. unfold subgrid. split.
  - rewrite length_map, length_py_slice. lia.
  - apply Forall_map, Forall_forall. intros row Hin.
    apply in_py_slice in Hin. rewrite Forall_forall in Hw.
    rewrite length_py_slice, (Hw row Hin). lia.
Qed.

(** For an h x w coordinate grid, a returned index box is non-empty and
    lies inside the grid, and the lat and lon arrays cut out with it are
    (y_max - y_min) x (x_max - x_min). *)
Theorem region_box_within_grid : forall lat lon lat_range lon_range bx h w,
  List.length lat = h -> List.length lon = h ->
  Forall (fun row => List.length row = w) lat ->
  Forall (fun row => List.length row = w) lon ->
  region_indices Rle lat lon lat_range lon_range = inr bx ->
  (x_min bx < x_max bx <= w)%nat /\ (y_min bx < y_max bx <= h)%nat /\
  List.length (subgrid lat bx) = (y_max bx - y_min bx)%nat /\
  Forall (fun row => List.length row = (x_max bx - x_min bx)%nat) (subgrid lat bx) /\
  List.length (subgrid lon bx) = (y_max bx - y_min bx)%nat /\
  Forall (fun row => List.length row = (x_max bx - x_min bx)%nat) (subgrid lon bx).
Proof.
  intros lat lon lr nr bx h w Hh Hh' Hw Hw' H.
  destruct (region_indices_some_match _ _ _ _ _ H) as (y0 & x0 & Hm).
  destruct (region_indices_rect R Rle _ _ _ _ _ _ Hm)
    as (bx' & Hbx & Hall & _ & (xm & Hxm & yx & Hmx) & _ & (ym & Hym & xy & Hmy)).
  rewrite H in Hbx. injection Hbx as <-.
  destruct (Hall _ _ Hmx) as [Hx1 _]. destruct (Hall _ _ Hmy) as [_ Hy1].
  destruct Hmx as (a & b & Ha & _). destruct Hmy as (a' & b' & Ha' & _).
  destruct (at2_bounds _ _ _ _ _ Hw Ha) as [_ Hxw].
  destruct (at2_bounds _ _ _ _ _ Hw Ha') as [Hyh _].
  assert (Hx : (x_min bx < x_max bx <= w)%nat) by lia.
  assert (Hy : (y_min bx < y_max bx <= h)%nat) by lia.
  destruct (subgrid_dims lat bx h w Hh Hw) as [L1 L2]; try lia.
  destruct (subgrid_dims lon bx h w Hh' Hw') as [L3 L4]; try lia.
  repeat split; assumption || lia.
Qed.

Section Monotone.

Hypothesis Rle_trans : forall a b c, Rle a b = true -> Rle b c = true -> Rle a c = true.

Lemma matching_widen : forall lat lon lr nr lr' nr' y x,
  Rle (fst lr') (fst lr) = true -> Rle (snd lr) (snd lr') = true ->
  Rle (fst nr') (fst nr) = true -> Rle (snd nr) (snd nr') = true ->
  matching Rle lat lon lr nr y x -> matching Rle lat lon lr' nr' y x.
Proof.
  intros lat lon lr nr lr' nr' y x H1 H2 H3 H4 (a & b & Ha & Hb & Hin).
  exists a, b. split; [exact Ha|]. split; [exact Hb|].
  unfold in_box in *. rewrite !andb_true_iff in *.
  destruct Hin as [[[Ha1 Ha2] Hb1] Hb2].
  repeat split; eauto.
Qed.

(** With a transitive comparison, widening the lat and lon ranges never
    shrinks the index box: the box of the wider ranges exists and
    contains the box of the narrower ones. *)
Theorem region_indices_widen : forall lat lon lr nr lr' nr' bx,
  Rle (fst lr') (fst lr) = true -> Rle (snd lr) (snd lr') = true ->
  Rle (fst nr') (fst nr) = true -> Rle (snd nr) (snd nr') = true ->
  region_indices Rle lat lon lr nr = inr bx ->
  exists bx', region_indices Rle lat lon lr' nr' = inr bx' /\
    (x_min bx' <= x_min bx)%nat /\ (x_max bx <= x_max bx')%nat /\
    (y_min bx' <= y_min bx)%nat /\ (y_max bx <= y_max bx')%nat.
Proof.
  intros lat lon lr nr lr' nr' bx H1 H2 H3 H4 H.
  destruct (region_indices_some_match _ _ _ _ _ H) as (y0 & x0 & Hm).
  destruct (region_indices_rect R Rle _ _ _ _ _ _ Hm)
    as (bx0 & Hbx & _ & (yl & Hl) & (xm & Hxm & yx & Hmx) & (xb & Hb) & (ym & Hym & xy & Hmy)).
  rewrite H in Hbx. injection Hbx as <-.
  pose proof (matching_widen _ _ _ _ _ _ _ _ H1 H2 H3 H4 Hm) as Hm'.
  destruct (region_indices_rect R Rle _ _ _ _ _ _ Hm') as (bx' & Hbx' & Hall' & _).
  exists bx'. split; [exact Hbx'|].
  pose proof (Hall' _ _ (matching_widen _ _ _ _ _ _ _ _ H1 H2 H3 H4 Hl)).
  pose proof (Hall' _ _ (matching_widen _ _ _ _ _ _ _ _ H1 H2 H3 H4 Hmx)).
  pose proof (Hall' _ _ (matching_widen _ _ _ _ _ _ _ _ H1 H2 H3 H4 Hb)).
  pose proof (Hall' _ _ (matching_widen _ _ _ _ _ _ _ _ H1 H2 H3 H4 Hmy)).
  lia.
Qed.

End Monotone.

End RegionExtras.

(** ** How requests change the service state *)

Section ServiceState.

Variable R : Type.
Variable Rle : R -> R -> bool.
Variable dataset : Type.
Variable LoadDataset : string -> exn + dataset.
Variable read : dataset -> Z -> list Z -> list Z -> list Z -> Z -> exn + ndarray.
Variable latlon_file : option (grid R * grid R).
Variable getLogicBox : dataset -> exn + list (list Z).
Variable getTimesteps : dataset -> exn + list Z.
Variable getField : dataset -> exn + option string.
Variable py_int : string -> option Z.
Variable py_float : string -> option R.

Local Abbreviation st := (@state R dataset).

(** Every cached dataset is still cached, under the same key. *)
Definition cache_extends (s s' : st) : Prop :=
  forall k d, dict_get k (_datasets s) = Some d -> dict_get k (_datasets s') = Some d.

(** Loaded coordinates stay as they are. *)
Definition coords_kept (s s' : st) : Prop :=
  forall la lo, _lat_center s = Some la -> _lon_center s = Some lo ->
  _lat_center s' = Some la /\ _lon_center s' = Some lo.

(** The coordinates are not loaded, or are the content of the file. *)
Definition coords_ok (s : st) : Prop :=
  (_lat_center s = None /\ _lon_center s = None) \/
  exists la lo, latlon_file = Some (la, lo) /\ _lat_center s = Some la /\ _lon_center s = Some lo.

Definition state_le (s s' : st) : Prop :=
  cache_extends s s' /\ coords_kept s s' /\
  (cache_ok LoadDataset s -> cache_ok LoadDataset s') /\ (coords_ok s -> coords_ok s').

Definition preserves {A} (m : M R dataset A) : Prop := forall s, state_le s (snd (m s)).

(** The states a [DataService] reaches from [__init__] through requests
    to the four API endpoints that use it. *)
Inductive reachable : st -> Prop :=
| reach_init : reachable init_state
| reach_slice args s : reachable s ->
    reachable (snd (api_data_slice R Rle dataset LoadDataset read latlon_file py_int py_float args s))
| reach_timestep args s : reachable s ->
    reachable (snd (api_timestep_data R Rle dataset LoadDataset read latlon_file py_int py_float args s))
| reach_metadata args s : reachable s ->
    reachable (snd (api_metadata R dataset LoadDataset getLogicBox getTimesteps getField args s))
| reach_coordinates args s : reachable s ->
    reachable (snd (api_coordinates R dataset py_float args s)).

Lemma state_le_refl s : state_le s s.
Proof.
  split; [intros k d H; exact H|].
  split; [intros la lo H1 H2; auto|]. split; auto.
Qed.

Lemma state_le_trans s1 s2 s3 : state_le s1 s2 -> state_le s2 s3 -> state_le s1 s3.
Proof.
  intros (A1 & B1 & C1 & D1) (A2 & B2 & C2 & D2).
  split; [|split; [|split]]; auto.
  - intros k d H. auto.
  - intros la lo H1 H2. destruct (B1 la lo H1 H2). auto.
Qed.

Lemma preserves_ret {A} (a : A) : preserves (ret R dataset a).
Proof. intros s. apply state_le_refl. Qed.

Lemma preserves_lift {A} (r : exn + A) : preserves (lift R dataset r).
Proof. intros s. apply state_le_refl. Qed.

Lemma preserves_raise {A} e : preserves (A := A) (raise R dataset e).
Proof. intros s. apply state_le_refl. Qed.

Lemma preserves_coords : preserves (coords R dataset).
Proof.
  intros s. unfold coords. destruct (_lat_center s), (_lon_center s); apply state_le_refl.
Qed.

Lemma preserves_bind {A B} (m : M R dataset A) (f : A -> M R dataset B) :
  preserves m -> (forall a, preserves (f a)) -> preserves (bind R dataset m f).
Proof.
  intros Hm Hf s. unfold bind. specialize (Hm s).
  destruct (m s) as [[e|a] s'] eqn:E; cbn [snd] in *; [exact Hm|].
  exact (state_le_trans _ _ _ Hm (Hf a s')).
Qed.

Lemma preserves_load_coordinates : preserves (_load_coordinates R dataset latlon_file).
Proof.
  intros s. unfold _load_coordinates.
  destruct (_lat_center s) as [la0|] eqn:E1, (_lon_center s) as [lo0|] eqn:E2;
    try apply state_le_refl;
  (destruct latlon_file as [[la lo]|] eqn:Ef; [|apply state_le_refl]);
  cbn [snd]; (split; [|split; [|split]]);
  try (intros k d H; exact H);
  try (intros la' lo' H1 H2; congruence);
  try (intros _; right; exists la, lo; repeat split; assumption).
  all: intros Hc k d H; apply Hc; exact H.
Qed.

Lemma get_dataset_coords : forall f s,
  _lat_center (snd (_get_dataset R dataset LoadDataset f s)) = _lat_center s /\
  _lon_center (snd (_get_dataset R dataset LoadDataset f s)) = _lon_center s.
Proof.
  intros f s. unfold _get_dataset.
  destruct (dict_get (py_lower f) FIELD_URLS); [|auto].
  destruct (dict_get (py_lower f) (_datasets s)); [auto|].
  destruct (LoadDataset _); auto.
Qed.

Lemma get_dataset_extends : forall f s,
  cache_extends s (snd (_get_dataset R dataset LoadDataset f s)).
Proof.
  intros f s k d H. unfold _get_dataset.
  destruct (dict_get (py_lower f) FIELD_URLS); [|exact H].
  destruct (dict_get (py_lower f) (_datasets s)) eqn:E; [exact H|].
  destruct (LoadDataset _); [exact H|]. cbn [snd _datasets].
  unfold dict_set. rewrite E, dict_get_app_one, H. reflexivity.
Qed.

Lemma preserves_get_dataset f : preserves (_get_dataset R dataset LoadDataset f).
Proof.
  intros s. destruct (get_dataset_coords f s) as [E1 E2].
  split; [|split; [|split]].
  - apply get_dataset_extends.
  - intros la lo H1 H2. rewrite E1, E2. auto.
  - apply get_dataset_cache_ok.
  - unfold coords_ok. rewrite E1, E2. auto.
Qed.

End ServiceState.

Section ServiceStateProofs.

Variable R : Type.
Variable Rle : R -> R -> bool.
Variable dataset : Type.
Variable LoadDataset : string -> exn + dataset.
Variable read : dataset -> Z -> list Z -> list Z -> list Z -> Z -> exn + ndarray.
Variable latlon_file : option (grid R * grid R).
Variable getLogicBox : dataset -> exn + list (list Z).
Variable getTimesteps : dataset -> exn + list Z.
Variable getField : dataset -> exn + option string.
Variable py_int : string -> option Z.
Variable py_float : string -> option R.

Local Abbreviation PRES := (preserves R dataset LoadDataset latlon_file).
Local Abbreviation LE := (state_le R dataset LoadDataset latlon_file).

Ltac preserves_tac :=
  repeat (cbv beta zeta;
          first
            [ apply preserves_bind; [|intros ?]
            | apply preserves_ret | apply preserves_lift | apply preserves_raise
            | apply preserves_coords | apply preserves_load_coordinates
            | apply preserves_get_dataset
            | match goal with
              | |- preserves _ _ _ _ (match ?x with _ => _ end) => destruct x
              end ]).

Lemma preserves_get_data_slice f t d lr nr q fmt :
  PRES (get_data_slice R Rle dataset LoadDataset read latlon_file f t d lr nr q fmt).
Proof. unfold get_data_slice. preserves_tac. Qed.

Lemma preserves_get_timestep_data f t lr nr zr q fmt :
  PRES (get_timestep_data R Rle dataset LoadDataset read latlon_file f t lr nr zr q fmt).
Proof. unfold get_timestep_data. preserves_tac. Qed.

Lemma preserves_get_metadata f :
  PRES (get_metadata R dataset LoadDataset getLogicBox getTimesteps getField f).
Proof. unfold get_metadata. preserves_tac. Qed.

Lemma handle_state_le (body : M R dataset (json R)) s :
  PRES body -> LE s (snd (handle R dataset body s)).
Proof.
  intros H. specialize (H s). unfold handle.
  destruct (body s) as [[e|j] s']; [destruct e|]; exact H.
Qed.

Lemma handlers_state_le : forall args s,
  LE s (snd (api_data_slice R Rle dataset LoadDataset read latlon_file py_int py_float args s)) /\
  LE s (snd (api_timestep_data R Rle dataset LoadDataset read latlon_file py_int py_float args s)) /\
  LE s (snd (api_metadata R dataset LoadDataset getLogicBox getTimesteps getField args s)) /\
  LE s (snd (api_coordinates R dataset py_float args s)).
Proof.
  intros args s. split; [|split; [|split]].
  - apply handle_state_le.
    unfold arg_int, to_int, arg_float, to_float.
    preserves_tac; apply preserves_get_data_slice.
  - apply handle_state_le.
    unfold arg_int, to_int, arg_float, to_float.
    preserves_tac; apply preserves_get_timestep_data.
  - unfold api_metadata.
    pose proof (preserves_get_metadata (arg_str args "field" "salinity") s) as H.
    destruct (get_metadata _ _ _ _ _ _ _ _) as [[e|j] s']; [destruct e|]; exact H.
  - apply handle_state_le.
    unfold opt_range, to_float, DataService_getattr, call_lat_lon_kwargs. preserves_tac.
Qed.

(** Every request to /api/data/slice, /api/data/timestep, /api/metadata or
    /api/coordinates, successful or not, only adds to the dataset cache
    (no cached dataset is removed or replaced) and never changes
    coordinates already loaded. *)
Theorem requests_keep_cache_and_coordinates : forall args s,
  (cache_extends R dataset s (snd (api_data_slice R Rle dataset LoadDataset read latlon_file py_int py_float args s)) /\
   coords_kept R dataset s (snd (api_data_slice R Rle dataset LoadDataset read latlon_file py_int py_float args s))) /\
  (cache_extends R dataset s (snd (api_timestep_data R Rle dataset LoadDataset read latlon_file py_int py_float args s)) /\
   coords_kept R dataset s (snd (api_timestep_data R Rle dataset LoadDataset read latlon_file py_int py_float args s))) /\
  (cache_extends R dataset s (snd (api_metadata R dataset LoadDataset getLogicBox getTimesteps getField args s)) /\
   coords_kept R dataset s (snd (api_metadata R dataset LoadDataset getLogicBox getTimesteps getField args s))) /\
  (cache_extends R dataset s (snd (api_coordinates R dataset py_float args s)) /\
   coords_kept R dataset s (snd (api_coordinates R dataset py_float args s))).
Proof.
  intros args s.
  destruct (handlers_state_le args s) as ((A1 & B1 & _) & (A2 & B2 & _) & (A3 & B3 & _) & (A4 & B4 & _)).
  auto.
Qed.

(** In every state the service reaches through requests, each cached
    dataset is the one [LoadDataset] returns for the URL of its key (a
    key of [FIELD_URLS]), and the coordinates are either not loaded or
    exactly the arrays of the coordinate file. *)
Theorem reachable_state_invariant : forall s,
  reachable R Rle dataset LoadDataset read latlon_file getLogicBox getTimesteps getField
    py_int py_float s ->
  cache_ok LoadDataset s /\ coords_ok R dataset latlon_file s.
Proof.
  induction 1 as [| args s _ [IH1 IH2] | args s _ [IH1 IH2] | args s _ [IH1 IH2]
                 | args s _ [IH1 IH2]].
  - split; [apply cache_ok_init | left; split; reflexivity].
  - destruct (handlers_state_le args s) as ((_ & _ & C & D) & _). auto.
  - destruct (handlers_state_le args s) as (_ & (_ & _ & C & D) & _). auto.
  - destruct (handlers_state_le args s) as (_ & _ & (_ & _ & C & D) & _). auto.
  - destruct (handlers_state_le args s) as (_ & _ & _ & (_ & _ & C & D)). auto.
Qed.

End ServiceStateProofs.

(** ** Error paths of the service methods *)

Section ServiceErrors.

Variable R : Type.
Variable Rle : R -> R -> bool.
Variable dataset : Type.
Variable LoadDataset : string -> exn + dataset.
Variable read : dataset -> Z -> list Z -> list Z -> list Z -> Z -> exn + ndarray.
Variable latlon_file : option (grid R * grid R).
Variable getLogicBox : dataset -> exn + list (list Z).
Variable getTimesteps : dataset -> exn + list Z.
Variable getField : dataset -> exn + option string.

Local Abbreviation GDS := (get_data_slice R Rle dataset LoadDataset read latlon_file).
Local Abbreviation GTD := (get_timestep_data R Rle dataset LoadDataset read latlon_file).
Local Abbreviation GET := (_get_dataset R dataset LoadDataset).

(** [_get_dataset] caches what it loads: once a call for [f] returns a
    dataset, a call for any spelling of [f] with the same lowercase form
    returns that dataset and leaves the state as it is. *)
Theorem get_dataset_cached : forall f g s d s',
  GET f s = (inr d, s') -> py_lower g = py_lower f -> GET g s' = (inr d, s').
Proof.
  intros f g s d s' H Hg. unfold _get_dataset in *. rewrite Hg.
  destruct (dict_get (py_lower f) FIELD_URLS) as [u|]; [|discriminate].
  destruct (dict_get (py_lower f) (_datasets s)) as [d0|] eqn:E.
  - injection H as <- <-. rewrite E. reflexivity.
  - destruct (LoadDataset u) as [e|d0]; [discriminate|].
    injection H as <- <-. cbn [_datasets].
    unfold dict_set. rewrite E, dict_get_app_one, E, String.eqb_refl. reflexivity.
Qed.

(** The coordinates are loaded before the field name is checked: with no
    coordinates loaded and no coordinate file, both data methods raise
    [FileNotFoundError] for every field name, known or not, with the
    state unchanged; once the coordinates are available, an unknown field
    name raises the unknown-field [ValueError] and loads no dataset. *)
Theorem data_methods_check_order : forall f t d lr nr zr q fmt s,
  ((_lat_center s = None \/ _lon_center s = None) -> latlon_file = None ->
   GDS f t d lr nr q fmt s = (inl (FileNotFoundError coord_missing_msg), s) /\
   GTD f t lr nr zr q fmt s = (inl (FileNotFoundError coord_missing_msg), s)) /\
  ((exists la lo, latlon_file = Some (la, lo)) \/
   (exists la lo, _lat_center s = Some la /\ _lon_center s = Some lo) ->
   dict_get (py_lower f) FIELD_URLS = None ->
   fst (GDS f t d lr nr q fmt s) = inl (ValueError (unknown_field_msg f)) /\
   _datasets (snd (GDS f t d lr nr q fmt s)) = _datasets s /\
   fst (GTD f t lr nr zr q fmt s) = inl (ValueError (unknown_field_msg f)) /\
   _datasets (snd (GTD f t lr nr zr q fmt s)) = _datasets s).
Proof.
  intros f t d lr nr zr q fmt s. split.
  - intros Hc Hf. unfold get_data_slice, get_timestep_data, bind, _load_coordinates.
    rewrite Hf.
    destruct Hc as [Hc|Hc]; rewrite Hc;
      [|destruct (_lat_center s)]; split; reflexivity.
  - intros Hc Hu. unfold get_data_slice, get_timestep_data, bind, _load_coordinates.
    destruct Hc as [(la & lo & Hf) | (la & lo & H1 & H2)].
    + destruct (_lat_center s), (_lon_center s);
        try (rewrite Hf; unfold _get_dataset; cbn [_datasets]; rewrite Hu;
             repeat split; reflexivity).
      unfold _get_dataset. rewrite Hu. repeat split; reflexivity.
    + rewrite H1, H2. unfold _get_dataset. rewrite Hu. repeat split; reflexivity.
Qed.

(** A failed read of the dataset is always a server error: with the
    coordinates loaded, the dataset found, and a matching region, a read
    that raises any exception [e] makes both data endpoints answer 500
    with "Failed to read data at timestep t: " followed by str(e). *)
Theorem read_failure_server_error : forall f t d lr nr zr q fmt s s1 db la lo bx e,
  _lat_center s = Some la -> _lon_center s = Some lo ->
  GET f s = (inr db, s1) ->
  region_indices Rle la lo lr nr = inr bx ->
  (read db t [Z.of_nat (x_min bx); Z.of_nat (x_max bx)]
     [Z.of_nat (y_min bx); Z.of_nat (y_max bx)] [d; (d + 1)%Z] q = inl e ->
   respond (GDS f t d lr nr q fmt s)
   = ((500%Z, error_body ("Failed to read data at timestep " ++ Z_to_string t
                          ++ ": " ++ exn_msg e)), s1)) /\
  (read db t [Z.of_nat (x_min bx); Z.of_nat (x_max bx)]
     [Z.of_nat (y_min bx); Z.of_nat (y_max bx)] zr q = inl e ->
   respond (GTD f t lr nr zr q fmt s)
   = ((500%Z, error_body ("Failed to read data at timestep " ++ Z_to_string t
                          ++ ": " ++ exn_msg e)), s1)).
Proof.
  intros f t d lr nr zr q fmt s s1 db la lo bx e H1 H2 Hg Hr.
  destruct (get_dataset_coords R dataset LoadDataset f s) as [C1 C2].
  rewrite Hg in C1, C2. cbn [snd] in C1, C2.
  split; intros He;
  unfold get_data_slice, get_timestep_data, bind, _load_coordinates;
  rewrite H1, H2; cbv beta iota; rewrite Hg; cbv beta iota;
  unfold coords; rewrite C1, C2, H1, H2; cbv beta iota;
  unfold lift, _extract_data_by_latlon_range; cbn [fst snd]; rewrite Hr; cbv beta iota zeta;
  rewrite He; reflexivity.
Qed.


End ServiceErrors.

(** ** The Batch Loader's stacked result *)


Lemma Forall2_nth_error_r {A B} (P : A -> B -> Prop) : forall l1 l2 i y,
  Forall2 P l1 l2 -> nth_error l2 i = Some y -> exists x, nth_error l1 i = Some x /\ P x y.
Proof.
  intros l1 l2 i y H. revert i. induction H as [|a b l1 l2 Hab _ IH]; intros [|i] Hi;
    cbn in Hi; try discriminate.
  - injection Hi as <-. exists a. split; [reflexivity | exact Hab].
  - apply IH. exact Hi.
Qed.

Lemma np_stack_ok : forall arrs b, np_stack arrs = inr b ->
  exists a rest, arrs = a :: rest /\ Forall (fun x => shape x = shape a) arrs /\
  b = mkArr (List.length arrs :: shape a) (flat_map vals arrs).
Proof.
  intros [|a rest] b H; [discriminate|]. cbn [np_stack] in H.
  destruct (forallb _ rest) eqn:E; [|discriminate]. injection H as <-.
  exists a, rest. split; [reflexivity|]. split; [|reflexivity].
  constructor; [reflexivity|]. apply Forall_forall. intros x Hx.
  rewrite forallb_forall in E. specialize (E x Hx).
  destruct (list_eq_dec Nat.eq_dec (shape x) (shape a)); [assumption | discriminate].
Qed.

Section LoaderExtras.

Variable R : Type.
Variable Rle : R -> R -> bool.
Variable R_of_Z : Z -> R.
Variable dataset : Type.
Variable LoadDataset : string -> exn + dataset.
Variable read : dataset -> Z -> list Z -> list Z -> list Z -> Z -> exn + ndarray.
Variable latlon_file : option (grid R * grid R).

Local Abbreviation extract_at db la lo t :=
  (extract_data_by_latlon_range R Rle dataset read db la lo
     (LAT_RANGE R R_of_Z) (LON_RANGE R R_of_Z) Z_RANGE QUALITY t).

Lemma load_timesteps_ok : forall db la lo ts arrs,
  load_timesteps R Rle R_of_Z dataset read db la lo ts = inr arrs ->
  Forall2 (fun t a => exists l1 l2, extract_at db la lo (Z.of_nat t) = inr (a, l1, l2)) ts arrs.
Proof.
  intros db la lo ts. induction ts as [|t ts IH]; intros arrs H.
  - injection H as <-. constructor.
  - cbn [load_timesteps] in H.
    destruct (extract_at db la lo (Z.of_nat t)) as [e | [[a l1] l2]] eqn:E; [discriminate|].
    destruct (load_timesteps _ _ _ _ _ db la lo ts) as [e|rest] eqn:E'; [discriminate|].
    injection H as <-. constructor; [eauto | apply IH; reflexivity].
Qed.

Lemma load_salinity_data_ok : forall data lat lon,
  load_salinity_data R Rle R_of_Z dataset LoadDataset read latlon_file = inr (data, lat, lon) ->
  exists la0 lo0 db sh arrs,
    latlon_file = Some (la0, lo0) /\ LoadDataset SALINITY_URL = inr db /\
    (exists fd, extract_at db la0 lo0 0%Z = inr (fd, lat, lon)) /\
    Forall2 (fun t a => exists l1 l2, extract_at db la0 lo0 (Z.of_nat t) = inr (a, l1, l2))
            (seq 0 NUMBER_OF_TIME_STEPS) arrs /\
    Forall (fun a => shape a = sh) arrs /\
    shape data = (List.length arrs :: sh) /\ vals data = flat_map vals arrs /\
    (3 <= List.length sh)%nat.
Proof.
  intros data lat lon H. unfold load_salinity_data in H.
  destruct latlon_file as [[la0 lo0]|] eqn:Ef; [|discriminate].
  destruct (LoadDataset SALINITY_URL) as [e|db] eqn:El; [discriminate|].
  destruct (extract_at db la0 lo0 0%Z) as [e | [[fd lat'] lon']] eqn:E0; [discriminate|].
  destruct (List.length (shape fd) <? 3)%nat; [discriminate|].
  destruct (load_timesteps _ _ _ _ _ db la0 lo0 _) as [e|arrs] eqn:Et; [discriminate|].
  destruct (np_stack arrs) as [e|b] eqn:Es; [discriminate|].
  destruct (List.length (shape b) <? 4)%nat eqn:Eb; [discriminate|].
  injection H as <- <- <-.
  destruct (np_stack_ok _ _ Es) as (a & rest & -> & Hall & ->).
  apply Nat.ltb_ge in Eb. cbn [shape List.length] in Eb.
  exists la0, lo0, db, (shape a), (a :: rest).
  split; [reflexivity|]. split; [reflexivity|]. split; [eauto|].
  split; [apply load_timesteps_ok; exact Et|].
  split; [exact Hall|]. split; [reflexivity|]. split; [reflexivity|]. lia.
Qed.

(** A successful load stacks exactly NUMBER_OF_TIME_STEPS arrays, in time
    order: element t of the time axis is the array read for timestep t,
    all of them share one shape of at least three axes, the stacked
    array's shape is that shape behind the time axis and its elements are
    theirs in order; the returned lat/lon arrays are those of the first
    read of timestep 0. *)
Theorem load_salinity_data_stacks_all : forall data lat lon,
  load_salinity_data R Rle R_of_Z dataset LoadDataset read latlon_file = inr (data, lat, lon) ->
  exists la0 lo0 db sh arrs,
    latlon_file = Some (la0, lo0) /\ LoadDataset SALINITY_URL = inr db /\
    (exists fd, extract_at db la0 lo0 0%Z = inr (fd, lat, lon)) /\
    List.length arrs = NUMBER_OF_TIME_STEPS /\
    (forall t a, nth_error arrs t = Some a ->
       shape a = sh /\ exists l1 l2, extract_at db la0 lo0 (Z.of_nat t) = inr (a, l1, l2)) /\
    shape data = (NUMBER_OF_TIME_STEPS :: sh) /\ (3 <= List.length sh)%nat /\
    vals data = flat_map vals arrs.
Proof.
  intros data lat lon H.
  destruct (load_salinity_data_ok _ _ _ H)
    as (la0 & lo0 & db & sh & arrs & Hf & Hl & Hfirst & H2 & Hs & Hshape & Hvals & H3).
  assert (Hlen : List.length arrs = NUMBER_OF_TIME_STEPS)
    by (rewrite <- (Forall2_length H2), length_seq; reflexivity).
  exists la0, lo0, db, sh, arrs.
  split; [exact Hf|]. split; [exact Hl|]. split; [exact Hfirst|].
  split; [exact Hlen|]. split.
  - intros t a Ht. split.
    + rewrite Forall_forall in Hs. apply Hs. eapply nth_error_In. exact Ht.
    + destruct (Forall2_nth_error_r _ _ _ _ _ H2 Ht) as (t' & Ht' & Hx).
      rewrite nth_error_seq in Ht'.
      destruct (t <? NUMBER_OF_TIME_STEPS)%nat; [|discriminate].
      injection Ht' as <-. exact Hx.
  - rewrite <- Hlen. auto.
Qed.


End LoaderExtras.

(** ** Witnesses of the properties above *)

Lemma tolist_2d_row_major_witness :
  List.length [1; 2; 3; 4]%Z = (2 * 2)%nat /\
  tolist (R := Z) (mkArr [2; 2] [1; 2; 3; 4]%Z)
  = JArr [JArr [JF32 1%Z; JF32 2%Z]; JArr [JF32 3%Z; JF32 4%Z]].
Proof.
  split; [reflexivity|].
  exact (tolist_2d_row_major Z 2 2 [1; 2; 3; 4]%Z eq_refl).
Defined.

Lemma region_box_within_grid_witness :
  region_indices Z.leb lat_distorted lon_distorted (1, 2)%Z (1, 2)%Z
    = inr (mkIndexBox 1 3 1 3) /\
  (1 < 3 <= 4)%nat /\ (1 < 3 <= 4)%nat /\
  List.length (subgrid lat_distorted (mkIndexBox 1 3 1 3)) = 2%nat.
Proof.
  assert (H : region_indices Z.leb lat_distorted lon_distorted (1, 2)%Z (1, 2)%Z
                = inr (mkIndexBox 1 3 1 3)) by reflexivity.
  destruct (region_box_within_grid Z Z.leb lat_distorted lon_distorted (1, 2)%Z (1, 2)%Z
              (mkIndexBox 1 3 1 3) 4 4 eq_refl eq_refl
              ltac:(repeat constructor) ltac:(repeat constructor) H)
    as (Hx & Hy & Hl & _).
  split; [exact H|]. split; [exact Hx|]. split; [exact Hy|]. exact Hl.
Defined.

Lemma Zleb_trans : forall a b c : Z, Z.leb a b = true -> Z.leb b c = true -> Z.leb a c = true.
Proof. intros a b c. rewrite !Z.leb_le. lia. Qed.

Lemma region_indices_widen_witness :
  region_indices Z.leb lat_distorted lon_distorted (1, 2)%Z (1, 2)%Z
    = inr (mkIndexBox 1 3 1 3) /\
  exists bx', region_indices Z.leb lat_distorted lon_distorted (0, 3)%Z (0, 3)%Z = inr bx' /\
    (x_min bx' <= 1)%nat /\ (3 <= x_max bx')%nat /\ (y_min bx' <= 1)%nat /\ (3 <= y_max bx')%nat.
Proof.
  assert (H : region_indices Z.leb lat_distorted lon_distorted (1, 2)%Z (1, 2)%Z
                = inr (mkIndexBox 1 3 1 3)) by reflexivity.
  split; [exact H|].
  exact (region_indices_widen Z Z.leb Zleb_trans lat_distorted lon_distorted
           (1, 2)%Z (1, 2)%Z (0, 3)%Z (0, 3)%Z _ eq_refl eq_refl eq_refl eq_refl H).
Defined.

Lemma get_dataset_cached_witness :
  _get_dataset Z unit load_unit "salt" init_state = (inr tt, mkState [("salt", tt)] None None) /\
  _get_dataset Z unit load_unit "SALT" (mkState [("salt", tt)] None None)
  = (inr tt, mkState [("salt", tt)] None None).
Proof.
  assert (H : _get_dataset Z unit load_unit "salt" init_state
              = (inr tt, mkState [("salt", tt)] None None)) by reflexivity.
  split; [exact H|].
  exact (get_dataset_cached Z unit load_unit "salt" "SALT" init_state tt _ H eq_refl).
Defined.

Lemma data_methods_check_order_witness :
  get_data_slice Z Z.leb unit load_unit read_fixed None "foo" 0 0 (1, 2)%Z (1, 2)%Z (-12)
    "array" init_state
  = (inl (FileNotFoundError coord_missing_msg), init_state).
Proof.
  exact (proj1 (proj1 (data_methods_check_order Z Z.leb unit load_unit read_fixed None
                         "foo" 0 0 (1, 2)%Z (1, 2)%Z [0; 1]%Z (-12) "array" init_state)
                  (or_introl eq_refl) eq_refl)).
Defined.

Lemma read_failure_server_error_witness :
  region_indices Z.leb lat_distorted lon_distorted (1, 2)%Z (1, 2)%Z
    = inr (mkIndexBox 1 3 1 3) /\
  respond (get_data_slice Z Z.leb unit load_unit read_fail_3 None "salinity" 3 0
             (1, 2)%Z (1, 2)%Z (-12) "array"
             (mkState [] (Some lat_distorted) (Some lon_distorted)))
  = ((500%Z, error_body ("Failed to read data at timestep " ++ Z_to_string 3
                         ++ ": " ++ exn_msg (RuntimeError "connection reset"))),
     mkState [("salinity", tt)] (Some lat_distorted) (Some lon_distorted)).
Proof.
  assert (H : region_indices Z.leb lat_distorted lon_distorted (1, 2)%Z (1, 2)%Z
                = inr (mkIndexBox 1 3 1 3)) by reflexivity.
  split; [exact H|].
  apply (proj1 (read_failure_server_error Z Z.leb unit load_unit read_fail_3 None
                  "salinity" 3 0 (1, 2)%Z (1, 2)%Z [0; 1]%Z (-12) "array"
                  (mkState [] (Some lat_distorted) (Some lon_distorted))
                  (mkState [("salinity", tt)] (Some lat_distorted) (Some lon_distorted))
                  tt lat_distorted lon_distorted (mkIndexBox 1 3 1 3)
                  (RuntimeError "connection reset") eq_refl eq_refl eq_refl H)).
  reflexivity.
Defined.


Lemma reachable_state_invariant_witness :
  let s1 := snd (api_data_slice Z Z.leb unit load_unit read_fixed
                   (Some (lat_distorted, lon_distorted)) int_literal int_literal
                   [("lat_min", "1"); ("lat_max", "2"); ("lon_min", "1"); ("lon_max", "2")]
                   init_state) in
  reachable Z Z.leb unit load_unit read_fixed (Some (lat_distorted, lon_distorted))
    logic_box_type_error no_timesteps no_field_name int_literal int_literal s1 /\
  cache_ok load_unit s1 /\ coords_ok Z unit (Some (lat_distorted, lon_distorted)) s1.
Proof.
  intros s1.
  assert (Hr : reachable Z Z.leb unit load_unit read_fixed (Some (lat_distorted, lon_distorted))
                 logic_box_type_error no_timesteps no_field_name int_literal int_literal s1)
    by (apply reach_slice; apply reach_init).
  split; [exact Hr|].
  exact (reachable_state_invariant Z Z.leb unit load_unit read_fixed
           (Some (lat_distorted, lon_distorted)) logic_box_type_error no_timesteps
           no_field_name int_literal int_literal s1 Hr).
Defined.

Lemma load_salinity_data_stacks_all_witness :
  exists data lat lon,
    load_salinity_data Z Z.leb id unit load_unit read_fixed (Some (lat_au, lon_au))
      = inr (data, lat, lon) /\
    exists sh, shape data = (NUMBER_OF_TIME_STEPS :: sh) /\ (3 <= List.length sh)%nat.
Proof.
  destruct (load_salinity_data Z Z.leb id unit load_unit read_fixed (Some (lat_au, lon_au)))
    as [e | [[data lat] lon]] eqn:E.
  - vm_compute in E. discriminate E.
  - exists data, lat, lon. split; [reflexivity|].
    destruct (load_salinity_data_stacks_all Z Z.leb id unit load_unit read_fixed
                (Some (lat_au, lon_au)) data lat lon E)
      as (la0 & lo0 & db & sh & arrs & _ & _ & _ & _ & _ & Hs & H3 & _).
    exists sh. split; [exact Hs | exact H3].
Defined.

